(** * The authenticated API session layer of the chat frontend

    A shallow embedding of

    - [frontend/src/services/api.js]: the axios instance [api], its request
      and response interceptors, and the resource client [chatAPI];
    - [frontend/src/stores/authStore.js]: the zustand store [useAuthStore]
      with its actions [login], [register], [logout], [updateProfile],
      [changePassword], [clearError], [initializeAuth] and the [persist]
      configuration ([name], [partialize]);
    - the [fetch]-based revision of [login], [register] and [logout] of the
      same store.

    JavaScript values are a datatype, objects are finite maps from property
    names to values, and every action is a function from the state of the
    browser tab (store, [localStorage], location, axios defaults, network) to
    a new state and a completion: a returned value or a thrown error. *)

From stdpp Require Import gmap strings list pretty.

#[local] Open Scope string_scope.
#[local] Set Warnings "-register-all".

(** ** JavaScript values *)

(** A number, as far as the program can tell one from another: whether it
    is zero, and how it prints. The program does no arithmetic on values; it
    tests them for truthiness and prints them into strings. The numbers are
    the finite ones, which are those a JSON document can carry. *)
Record number : Type := {
  is_zero : bool;
  printed : string;
}.

Definition number_zero : number := {| is_zero := true; printed := "0" |}.

Inductive value : Type :=
| VUndefined
| VNull
| VBool (b : bool)
| VNum (n : number)
| VStr (s : string)
| VArr (l : list value)
| VObj (o : gmap string value).

(** [if (v)], [v || w], [c ? a : b]. *)
Definition truthy (v : value) : bool :=
  match v with
  | VUndefined | VNull => false
  | VBool b => b
  | VNum n => negb (is_zero n)
  | VStr s => negb (String.eqb s "")
  | VArr _ | VObj _ => true
  end.

(** [a || b] *)
Definition or_else (a b : value) : value := if truthy a then a else b.

(** [a || b] on strings: the empty string is falsy. *)
Definition str_or (a b : string) : string :=
  if String.eqb a "" then b else a.

(** [v === undefined || v === null] *)
Definition nullish (v : value) : bool :=
  match v with
  | VUndefined | VNull => true
  | _ => false
  end.

(** [String(v)], the conversion done by a template literal, by [new Error(v)]
    and by [FormData.append]. An array prints its elements separated by
    commas, with [null] and [undefined] printed as nothing. *)
Fixpoint to_string (v : value) : string :=
  match v with
  | VUndefined => "undefined"
  | VNull => "null"
  | VBool true => "true"
  | VBool false => "false"
  | VNum n => printed n
  | VStr s => s
  | VArr l =>
      (fix join (l : list value) : string :=
         match l with
         | [] => ""
         | [x] => if nullish x then "" else to_string x
         | x :: l' => (if nullish x then "" else to_string x) ++ "," ++ join l'
         end) l
  | VObj _ => "[object Object]"
  end.

(** [v.k] for a property name [k] that is not built in. Reading a property of
    [null] or [undefined] throws a [TypeError] ([None]); a primitive or an
    array has no such property. The names the program reads ([state],
    [token], [detail], [access_token], [user]) are none of the built-in
    ones. *)
Definition get_prop (v : value) (k : string) : option value :=
  match v with
  | VUndefined | VNull => None
  | VObj o => Some (default VUndefined (o !! k))
  | _ => Some VUndefined
  end.

(** [v?.k] *)
Definition opt_prop (v : value) (k : string) : value :=
  default VUndefined (get_prop v k).

(** The own enumerable properties copied by [{...v}]: those of an object, the
    indices of an array or of a string, nothing for the other primitives. *)
Definition spread (v : value) : gmap string value :=
  match v with
  | VObj o => o
  | VArr l => list_to_map (imap (λ i x, (pretty i, x)) l)
  | VStr s =>
      list_to_map (imap (λ i c, (pretty i, VStr (String c EmptyString)))
                        (String.list_ascii_of_string s))
  | _ => ∅
  end.

(** [{...a, ...b}]: the properties of [b] win. *)
Definition spread2 (a b : value) : value := VObj (spread b ∪ spread a).

(** The value read back from the text [JSON.stringify(v)]: a property whose
    value is [undefined] is dropped, [undefined] in an array becomes
    [null]. *)
Fixpoint jsonify (v : value) : value :=
  match v with
  | VArr l =>
      VArr (map (λ x, match x with VUndefined => VNull | _ => jsonify x end) l)
  | VObj o =>
      VObj (omap (λ x, match x with
                       | VUndefined => None
                       | _ => Some (jsonify x)
                       end) o)
  | _ => v
  end.

(** A string known by what [JSON.parse] makes of it: the value it denotes,
    or, for a text that is not a JSON document, its characters. Response
    bodies and [localStorage] entries are such strings. *)
Inductive text : Type :=
| JsonText (v : value)
| RawText (raw : string).

(** [if (t)] on a string: only the empty string is falsy, and the empty
    string is not a JSON document. *)
Definition text_truthy (t : text) : bool :=
  match t with
  | JsonText _ => true
  | RawText raw => negb (String.eqb raw "")
  end.

(** [JSON.parse(t)]; [None] is the [SyntaxError]. *)
Definition JSON_parse (t : text) : option value :=
  match t with
  | JsonText v => Some v
  | RawText _ => None
  end.

(** ** Errors and completions *)

(** The response object of axios, as far as the program reads it. *)
Record http_response : Type := {
  status : Z;
  data : value;
}.

(** A thrown object: its [message], and the [response] that axios attaches
    when the server did answer. *)
Record js_error : Type := JsError {
  message : string;
  response : option http_response;
}.

(** [new Error(v)]: the message is [String(v)], or empty for [undefined]. *)
Definition new_Error (v : value) : js_error :=
  {| message := match v with VUndefined => "" | _ => to_string v end;
     response := None |}.

Inductive completion (A : Type) : Type :=
| Returned (a : A)
| Thrown (e : js_error).
Arguments Returned {A} a.
Arguments Thrown {A} e.

(** ** The network *)

(** [JSON.stringify(v)] for an object [v]. *)
Definition JSON_stringify (v : value) : text := JsonText (jsonify v).

(** What a request carries: nothing, a value that axios serialises as JSON, a
    string, or the entries of a [FormData] in the order they were appended. *)
Inductive payload : Type :=
| NoBody
| JsonData (v : value)
| TextBody (t : text)
| FormBody (entries : list (string * string)).

Record request : Type := Request {
  method : string;
  url : string;
  headers : gmap string string;
  body : payload;
}.

Inductive net_outcome : Type :=
| NetworkError (msg : string)
| HttpResponse (code : Z) (content : text).

(** [response.ok], and axios's default [validateStatus]. *)
Definition status_ok (code : Z) : bool :=
  ((200 <=? code) && (code <=? 299))%Z.

(** What the engine and the network are to the program: the server answers
    a request and moves on; the texts of the errors the engine raises itself
    are its own. *)
Record Host (Server : Type) : Type := {
  transport : Server → request → Server * net_outcome;
  syntax_error_message : string → string;
  type_error_message : value → string → string;
}.
Arguments transport {Server}.
Arguments syntax_error_message {Server}.
Arguments type_error_message {Server}.

(** ** The session and the browser tab *)

(** The state fields of [useAuthStore]. *)
Record Session : Type := {
  user : value;
  token : value;
  isAuthenticated : value;
  isLoading : value;
  error : value;
}.

(** The state the store is created with. *)
Definition initial_session : Session :=
  {| user := VNull; token := VNull; isAuthenticated := VBool false;
     isLoading := VBool false; error := VNull |}.

(** The argument of [set]: the fields it names. *)
Record patch : Type := {
  p_user : option value;
  p_token : option value;
  p_isAuthenticated : option value;
  p_isLoading : option value;
  p_error : option value;
}.

(** [Object.assign({}, state, partial)] *)
Definition assign (s : Session) (p : patch) : Session :=
  {| user := default (user s) (p_user p);
     token := default (token s) (p_token p);
     isAuthenticated := default (isAuthenticated s) (p_isAuthenticated p);
     isLoading := default (isLoading s) (p_isLoading p);
     error := default (error s) (p_error p) |}.

Inductive event : Type :=
| Sent (req : request)
| StorageRemoved (key : string)
| Navigated (href : string).

(** The tab: the store, the [localStorage] entry ['auth-storage'],
    [window.location.href], [api.defaults.headers.common['Authorization']],
    the server, and what has been done so far. *)
Record World (Server : Type) : Type := {
  session : Session;
  storage : option text;
  location : string;
  default_auth : option string;
  server : Server;
  log : list event;
}.
Arguments session {Server}.
Arguments storage {Server}.
Arguments location {Server}.
Arguments default_auth {Server}.
Arguments server {Server}.
Arguments log {Server}.

Definition with_session {Server} (s : Session) (w : World Server) : World Server :=
  {| session := s; storage := storage w; location := location w;
     default_auth := default_auth w; server := server w; log := log w |}.

Definition with_storage {Server} (st : option text) (w : World Server) : World Server :=
  {| session := session w; storage := st; location := location w;
     default_auth := default_auth w; server := server w; log := log w |}.

Definition with_location {Server} (href : string) (w : World Server) : World Server :=
  {| session := session w; storage := storage w; location := href;
     default_auth := default_auth w; server := server w; log := log w |}.

Definition with_default_auth {Server} (h : option string) (w : World Server) : World Server :=
  {| session := session w; storage := storage w; location := location w;
     default_auth := h; server := server w; log := log w |}.

Definition with_server {Server} (srv : Server) (w : World Server) : World Server :=
  {| session := session w; storage := storage w; location := location w;
     default_auth := default_auth w; server := srv; log := log w |}.

Definition logged {Server} (e : event) (w : World Server) : World Server :=
  {| session := session w; storage := storage w; location := location w;
     default_auth := default_auth w; server := server w; log := log w ++ [e] |}.

(** ** Actions *)

(** An action runs in a tab and completes. *)
Definition M (Server A : Type) : Type := World Server → World Server * completion A.

#[global] Instance M_ret {Server} : MRet (M Server) :=
  λ A a w, (w, Returned a).

#[global] Instance M_bind {Server} : MBind (M Server) :=
  λ A B k m w,
    match m w with
    | (w', Returned a) => k a w'
    | (w', Thrown e) => (w', Thrown e)
    end.

(** [throw e] *)
Definition throw {Server A} (e : js_error) : M Server A :=
  λ w, (w, Thrown e).

(** [try { m } catch (error) { h }] *)
Definition try_catch {Server A} (m : M Server A) (h : js_error → M Server A) : M Server A :=
  λ w,
    match m w with
    | (w', Thrown e) => h e w'
    | r => r
    end.

(** A step on the tab that cannot fail. *)
Definition modify {Server} (f : World Server → World Server) : M Server unit :=
  λ w, (f w, Returned tt).

(** [get()] *)
Definition get {Server} : M Server Session :=
  λ w, (w, Returned (session w)).

(** A property read that throws on [null] and [undefined]. *)
Definition read_prop {Server} (host : Host Server) (v : value) (k : string) : M Server value :=
  match get_prop v k with
  | Some x => mret x
  | None => throw {| message := type_error_message host v k; response := None |}
  end.

(** ** services/api.js *)

Module Api.
Section WithHost.
Context {Server : Type} (host : Host Server).

(** [headers] of [axios.create]. *)
Definition instance_headers : gmap string string :=
  {[ "Content-Type" := "application/json" ]}.

Definition set_header (k v : string) (config : request) : request :=
  {| method := method config; url := url config;
     headers := <[k := v]> (headers config); body := body config |}.

(** The request interceptor, given [localStorage.getItem('auth-storage')].
    A [SyntaxError] of [JSON.parse] and a [TypeError] of [parsed.state]
    are caught and logged to the console; the [config] is returned in
    every case. *)
Definition request_interceptor (item : option text) (config : request) : request :=
  match item with
  | Some t =>
      if text_truthy t then
        match JSON_parse t with
        | Some parsed =>
            match get_prop parsed "state" with
            | Some state =>
                let tok := if nullish state then VUndefined
                           else opt_prop state "token" in
                if truthy tok
                then set_header "Authorization" ("Bearer " ++ to_string tok) config
                else config
            | None => config
            end
        | None => config
        end
      else config
  | None => config
  end.

(** [error.response?.status === 401] *)
Definition is_401 (e : js_error) : bool :=
  match response e with
  | Some r => (status r =? 401)%Z
  | None => false
  end.

(** [localStorage.removeItem('auth-storage')] *)
Definition removeItem : M Server unit :=
  modify (λ w, logged (StorageRemoved "auth-storage") (with_storage None w)).

(** [window.location.href = href] *)
Definition navigate (href : string) : M Server unit :=
  modify (λ w, logged (Navigated href) (with_location href w)).

(** The response interceptor: a response is passed on, an error is
    rejected again, after the forced logout when its status is 401. *)
Definition response_fulfilled (r : http_response) : M Server http_response :=
  mret r.

Definition response_rejected (e : js_error) : M Server http_response :=
  (if is_401 e then removeItem;; navigate "/login" else mret tt);;
  throw e.

(** The headers a call starts with: those of the call, over the
    Authorization of [api.defaults.headers.common] when it is set, over
    those of the instance and the [Accept] header that axios has in
    [common] by default. *)
Definition call_headers (w : World Server) (own : gmap string string) : gmap string string :=
  own ∪ (match default_auth w with
         | Some h => {[ "Authorization" := h ]}
         | None => ∅
         end ∪ (instance_headers
                ∪ {[ "Accept" := "application/json, text/plain, */*" ]})).

(** The adapter: one request on the network. *)
Definition dispatch (config : request) : M Server net_outcome :=
  λ w, let '(srv, out) := transport host (server w) config in
       (logged (Sent config) (with_server srv w), Returned out).

(** What axios makes of a body: the value of a JSON document, else the
    string as it is. *)
Definition axios_data (content : text) : value :=
  match content with
  | JsonText v => v
  | RawText raw => VStr raw
  end.

(** The [config] handed to the adapter: the call's own, through the
    request interceptor. *)
Definition outgoing (w : World Server) (meth path : string)
    (own : gmap string string) (sent : payload) : request :=
  request_interceptor (storage w)
    {| method := meth; url := path; headers := call_headers w own;
       body := sent |}.

(** [api.request]: the request interceptor, the adapter, the default
    [validateStatus], the response interceptor. *)
Definition api_request (meth path : string) (own : gmap string string)
    (sent : payload) : M Server http_response :=
  λ w,
    (out ← dispatch (outgoing w meth path own sent);
     match out with
     | NetworkError msg =>
         response_rejected {| message := msg; response := None |}
     | HttpResponse code content =>
         let r := {| status := code; data := axios_data content |} in
         if status_ok code then response_fulfilled r
         else response_rejected
                {| message := "Request failed with status code " ++ pretty code;
                   response := Some r |}
     end) w.

Definition get (path : string) : M Server http_response :=
  api_request "GET" path ∅ NoBody.

Definition post (path : string) (sent : payload) : M Server http_response :=
  api_request "POST" path ∅ sent.

Definition put (path : string) (sent : payload) : M Server http_response :=
  api_request "PUT" path ∅ sent.

(** [chatAPI.sendMessage]: the entries appended to the [FormData]. The
    default [null] replaces an argument that is [undefined]. *)
Definition sendMessage_formData (message conversationId : value) : list (string * string) :=
  let conversationId :=
    match conversationId with VUndefined => VNull | v => v end in
  [("message", to_string message)] ++
  (if truthy conversationId
   then [("conversation_id", to_string conversationId)]
   else []).

Definition sendMessage (message conversationId : value) : M Server http_response :=
  post "/chat/send" (FormBody (sendMessage_formData message conversationId)).

End WithHost.
End Api.

(** ** stores/authStore.js *)

Module AuthStore.
Section WithHost.
Context {Server : Type} (host : Host Server).

(** *** The [persist] middleware, as configured

    [name: 'auth-storage'] is the one [localStorage] entry of the tab;
    [partialize] is the source's. No [version], [merge] or [migrate] is
    configured, so the middleware writes
    [JSON.stringify({state: partialize(state), version: 0})] after every
    [set], and at startup copies the properties of the stored [state] over
    the initial state. *)

Definition partialize (state : Session) : value :=
  VObj {[ "token" := token state ]}.

Definition persisted (state : Session) : text :=
  JSON_stringify (VObj {[ "state" := partialize state; "version" := VNum number_zero ]}).

(** [set(partial)] *)
Definition set (partial : patch) : M Server unit :=
  modify (λ w, let state := assign (session w) partial in
               with_storage (Some (persisted state)) (with_session state w)).

(** [{...currentState, ...persistedState}] on the fields of the session. *)
Definition merge (persistedState : value) (currentState : Session) : Session :=
  let o := spread persistedState in
  {| user := default (user currentState) (o !! "user");
     token := default (token currentState) (o !! "token");
     isAuthenticated := default (isAuthenticated currentState) (o !! "isAuthenticated");
     isLoading := default (isLoading currentState) (o !! "isLoading");
     error := default (error currentState) (o !! "error") |}.

(** The session the store starts with, given the stored entry: an entry
    that is missing, is not JSON, is falsy, or has another version number
    is left aside. *)
Definition rehydrate (item : option text) : Session :=
  match item ≫= JSON_parse with
  | Some doc =>
      if truthy doc then
        match opt_prop doc "version" with
        | VNum n =>
            if is_zero n then merge (opt_prop doc "state") initial_session
            else initial_session
        | _ => merge (opt_prop doc "state") initial_session
        end
      else initial_session
  | None => initial_session
  end.

(** *** The actions *)

(** [error.response?.data?.detail] *)
Definition error_detail (e : js_error) : value :=
  match response e with
  | Some r => if nullish (data r) then VUndefined else opt_prop (data r) "detail"
  | None => VUndefined
  end.

(** [api.defaults.headers.common['Authorization'] = h] and its [delete]. *)
Definition set_default_auth (h : option string) : M Server unit :=
  modify (with_default_auth h).

Definition login (credentials : value) : M Server value :=
  set {| p_user := None; p_token := None; p_isAuthenticated := None;
         p_isLoading := Some (VBool true); p_error := Some VNull |};;
  try_catch
    (resp ← Api.post host "/auth/login" (JsonData credentials);
     access_token ← read_prop host (data resp) "access_token";
     profile ← read_prop host (data resp) "user";
     set_default_auth (Some ("Bearer " ++ to_string access_token));;
     set {| p_user := Some profile; p_token := Some access_token;
            p_isAuthenticated := Some (VBool true);
            p_isLoading := Some (VBool false); p_error := Some VNull |};;
     mret (VObj {[ "success" := VBool true ]}))
    (λ e,
       let errorMessage := or_else (error_detail e) (VStr "Login failed") in
       set {| p_user := None; p_token := None; p_isAuthenticated := None;
              p_isLoading := Some (VBool false); p_error := Some errorMessage |};;
       mret (VObj {[ "success" := VBool false; "error" := errorMessage ]})).

Definition register (userData : value) : M Server value :=
  set {| p_user := None; p_token := None; p_isAuthenticated := None;
         p_isLoading := Some (VBool true); p_error := Some VNull |};;
  try_catch
    (resp ← Api.post host "/auth/register" (JsonData userData);
     set {| p_user := None; p_token := None; p_isAuthenticated := None;
            p_isLoading := Some (VBool false); p_error := Some VNull |};;
     mret (VObj {[ "success" := VBool true; "data" := data resp ]}))
    (λ e,
       let errorMessage := or_else (error_detail e) (VStr "Registration failed") in
       set {| p_user := None; p_token := None; p_isAuthenticated := None;
              p_isLoading := Some (VBool false); p_error := Some errorMessage |};;
       mret (VObj {[ "success" := VBool false; "error" := errorMessage ]})).

Definition logout : M Server unit :=
  set_default_auth None;;
  set {| p_user := Some VNull; p_token := Some VNull;
         p_isAuthenticated := Some (VBool false);
         p_isLoading := Some (VBool false); p_error := Some VNull |}.

Definition updateProfile (profileData : value) : M Server value :=
  try_catch
    (resp ← Api.put host "/users/profile" (JsonData profileData);
     state ← get;
     set {| p_user := Some (spread2 (user state) (data resp)); p_token := None;
            p_isAuthenticated := None; p_isLoading := None; p_error := None |};;
     mret (VObj {[ "success" := VBool true ]}))
    (λ e,
       let errorMessage := or_else (error_detail e) (VStr "Profile update failed") in
       set {| p_user := None; p_token := None; p_isAuthenticated := None;
              p_isLoading := None; p_error := Some errorMessage |};;
       mret (VObj {[ "success" := VBool false; "error" := errorMessage ]})).

Definition changePassword (passwordData : value) : M Server value :=
  try_catch
    (Api.put host "/users/password" (JsonData passwordData);;
     mret (VObj {[ "success" := VBool true ]}))
    (λ e,
       let errorMessage := or_else (error_detail e) (VStr "Password change failed") in
       set {| p_user := None; p_token := None; p_isAuthenticated := None;
              p_isLoading := None; p_error := Some errorMessage |};;
       mret (VObj {[ "success" := VBool false; "error" := errorMessage ]})).

Definition clearError : M Server unit :=
  set {| p_user := None; p_token := None; p_isAuthenticated := None;
         p_isLoading := None; p_error := Some VNull |}.

Definition initializeAuth : M Server unit :=
  state ← get;
  if truthy (token state) then
    try_catch
      (set_default_auth (Some ("Bearer " ++ to_string (token state)));;
       resp ← Api.get host "/users/profile";
       set {| p_user := Some (data resp); p_token := None;
              p_isAuthenticated := Some (VBool true);
              p_isLoading := None; p_error := None |})
      (λ _, logout)
  else mret tt.

End WithHost.
End AuthStore.

(** ** The [fetch]-based revision of [login], [register] and [logout] *)

Module AuthStoreFetch.
Section WithHost.
Context {Server : Type} (host : Host Server).

(** The [Response] of [fetch], as far as the program reads it. *)
Record fetch_response : Type := {
  code : Z;
  content : text;
}.

(** [response.ok] *)
Definition ok (r : fetch_response) : bool := status_ok (code r).

(** [fetch(url, {method, headers, body})]: rejects only when the request
    does not complete; no interceptor runs. *)
Definition fetch (config : request) : M Server fetch_response :=
  λ w,
    let '(srv, out) := transport host (server w) config in
    let w' := logged (Sent config) (with_server srv w) in
    match out with
    | NetworkError msg => (w', Thrown {| message := msg; response := None |})
    | HttpResponse c t => (w', Returned {| code := c; content := t |})
    end.

(** [response.json()] *)
Definition json (r : fetch_response) : M Server value :=
  match content r with
  | JsonText v => mret v
  | RawText raw =>
      throw {| message := syntax_error_message host raw; response := None |}
  end.

(** The three requests of the revision. *)
Definition login_request (username password : value) : request :=
  {| method := "POST"; url := "/auth/login";
     headers := {[ "Content-Type" := "application/json" ]};
     body := TextBody (JSON_stringify
               (VObj {[ "username" := username; "password" := password ]})) |}.

Definition profile_request (access_token : value) : request :=
  {| method := "GET"; url := "/users/profile";
     headers := {[ "Authorization" := "Bearer " ++ to_string access_token ]};
     body := NoBody |}.

Definition register_request (userData : value) : request :=
  {| method := "POST"; url := "/auth/register";
     headers := {[ "Content-Type" := "application/json" ]};
     body := TextBody (JSON_stringify userData) |}.

Definition login (username password : value) : M Server unit :=
  AuthStore.set
    {| p_user := None; p_token := None; p_isAuthenticated := None;
       p_isLoading := Some (VBool true); p_error := Some VNull |};;
  try_catch
    (resp ← fetch (login_request username password);
     (if negb (ok resp) then
        errorData ← json resp;
        detail ← read_prop host errorData "detail";
        throw (new_Error (or_else detail (VStr "Login failed")))
      else mret tt);;
     data ← json resp;
     access_token ← read_prop host data "access_token";
     profileResponse ← fetch (profile_request access_token);
     profile ← (if ok profileResponse then json profileResponse
                else mret (VObj {[ "username" := username ]}));
     AuthStore.set
       {| p_user := Some profile; p_token := Some access_token;
          p_isAuthenticated := Some (VBool true);
          p_isLoading := Some (VBool false); p_error := Some VNull |})
    (λ e,
       let errorMessage := str_or (message e) "Login failed" in
       AuthStore.set
         {| p_user := None; p_token := None; p_isAuthenticated := None;
            p_isLoading := Some (VBool false);
            p_error := Some (VStr errorMessage) |};;
       throw (new_Error (VStr errorMessage))).

Definition register (userData : value) : M Server unit :=
  AuthStore.set
    {| p_user := None; p_token := None; p_isAuthenticated := None;
       p_isLoading := Some (VBool true); p_error := Some VNull |};;
  try_catch
    (resp ← fetch (register_request userData);
     (if negb (ok resp) then
        errorData ← json resp;
        detail ← read_prop host errorData "detail";
        throw (new_Error (or_else detail (VStr "Registration failed")))
      else mret tt);;
     AuthStore.set
       {| p_user := None; p_token := None; p_isAuthenticated := None;
          p_isLoading := Some (VBool false); p_error := Some VNull |})
    (λ e,
       let errorMessage := str_or (message e) "Registration failed" in
       AuthStore.set
         {| p_user := None; p_token := None; p_isAuthenticated := None;
            p_isLoading := Some (VBool false);
            p_error := Some (VStr errorMessage) |};;
       throw (new_Error (VStr errorMessage))).

Definition logout : M Server unit :=
  AuthStore.set
    {| p_user := Some VNull; p_token := Some VNull;
       p_isAuthenticated := Some (VBool false);
       p_isLoading := Some (VBool false); p_error := Some VNull |}.

End WithHost.
End AuthStoreFetch.

(** ** The other resource clients of services/api.js

    [getConversations], [exportConversation] and [uploadFile] are left
    out: the first two pass [params] that axios serialises into the query,
    the last appends a [File]. *)

(** [api.delete(path)] *)
Definition api_delete {Server : Type} (host : Host Server) (path : string)
    : M Server http_response :=
  Api.api_request host "DELETE" path ∅ NoBody.

Module chatAPI.
Section WithHost.
Context {Server : Type} (host : Host Server).

Definition getConversation (conversationId : value) : M Server http_response :=
  Api.get host ("/chat/conversations/" ++ to_string conversationId).

Definition deleteConversation (conversationId : value) : M Server http_response :=
  api_delete host ("/chat/conversations/" ++ to_string conversationId).

End WithHost.
End chatAPI.

Module fileAPI.
Section WithHost.
Context {Server : Type} (host : Host Server).

Definition getKnowledgeBase : M Server http_response :=
  Api.get host "/files/knowledge-base".

Definition deleteDocument (documentId : value) : M Server http_response :=
  api_delete host ("/files/" ++ to_string documentId).

End WithHost.
End fileAPI.

Module pluginAPI.
Section WithHost.
Context {Server : Type} (host : Host Server).

Definition getPlugins : M Server http_response :=
  Api.get host "/plugins".

Definition executePlugin (pluginName params : value) : M Server http_response :=
  Api.post host ("/plugins/" ++ to_string pluginName ++ "/execute") (JsonData params).

End WithHost.
End pluginAPI.

Module userAPI.
Section WithHost.
Context {Server : Type} (host : Host Server).

Definition getProfile : M Server http_response :=
  Api.get host "/users/profile".

Definition updateProfile (profileData : value) : M Server http_response :=
  Api.put host "/users/profile" (JsonData profileData).

(** The two fields are read off [passwordData] before anything is sent;
    [FormData.append] turns each into a string. *)
Definition changePassword (passwordData : value) : M Server http_response :=
  currentPassword ← read_prop host passwordData "currentPassword";
  newPassword ← read_prop host passwordData "newPassword";
  Api.put host "/users/password"
    (FormBody [("current_password", to_string currentPassword);
               ("new_password", to_string newPassword)]).

End WithHost.
End userAPI.

Module healthAPI.
Section WithHost.
Context {Server : Type} (host : Host Server).

Definition check : M Server http_response :=
  Api.get host "/health".

End WithHost.
End healthAPI.

(** ** Components *)

(** A handler of a component runs in the tab and on the [useState] cells
    of the component: [St] is the record of those cells. A [set...] call
    of the component is an update of the record. *)
Definition PM (Server St A : Type) : Type :=
  St → World Server → (St * World Server) * completion A.

#[global] Instance PM_ret {Server St} : MRet (PM Server St) :=
  λ A a st w, ((st, w), Returned a).

#[global] Instance PM_bind {Server St} : MBind (PM Server St) :=
  λ A B k m st w,
    match m st w with
    | ((st', w'), Returned a) => k a st' w'
    | ((st', w'), Thrown e) => ((st', w'), Thrown e)
    end.

(** An action on the tab alone. *)
Definition lift {Server St A} (m : M Server A) : PM Server St A :=
  λ st w, let '(w', c) := m w in ((st, w'), c).

(** A [set...] call. *)
Definition update {Server St} (f : St → St) : PM Server St unit :=
  λ st w, ((f st, w), Returned tt).

(** A cell, as the handler sees it. *)
Definition gets {Server St A} (f : St → A) : PM Server St A :=
  λ st w, ((st, w), Returned (f st)).

Definition pthrow {Server St A} (e : js_error) : PM Server St A :=
  λ st w, ((st, w), Thrown e).

(** [try { m } catch (error) { h }] *)
Definition ptry_catch {Server St A} (m : PM Server St A)
    (h : js_error → PM Server St A) : PM Server St A :=
  λ st w,
    match m st w with
    | ((st', w'), Thrown e) => h e st' w'
    | r => r
    end.

(** [try { m } finally { fin }], for a [fin] that does not throw. *)
Definition ptry_finally {Server St A} (m : PM Server St A)
    (fin : PM Server St unit) : PM Server St A :=
  λ st w,
    match m st w with
    | ((st', w'), c) => (fst (fin st' w'), c)
    end.

(** [navigate(path)] of the router, as far as the location goes. *)
Definition router_navigate {Server : Type} (path : string) : M Server unit :=
  modify (λ w, logged (Navigated path) (with_location path w)).

(** [handleLogout] of components/Layout.js and of the sidebar. *)
Definition handleLogout {Server : Type} : M Server unit :=
  AuthStore.logout;; router_navigate "/login".

(** A request of a page: [fetch] with the token of the store in the
    Authorization header. *)
Definition page_request (meth path : string) (token : value) (sent : payload) : request :=
  {| method := meth; url := path;
     headers := {[ "Authorization" := "Bearer " ++ to_string token ]};
     body := sent |}.

(** *** The conversations page *)

Module Conversations.

(** The cells [conversations], [loading] and [error]. *)
Record state : Type := {
  conversations : value;
  loading : bool;
  failure : string;
}.

Definition setConversations (v : value) (st : state) : state :=
  {| conversations := v; loading := loading st; failure := failure st |}.

Definition setLoading (b : bool) (st : state) : state :=
  {| conversations := conversations st; loading := b; failure := failure st |}.

Definition setError (e : string) (st : state) : state :=
  {| conversations := conversations st; loading := loading st; failure := e |}.

Section WithHost.
Context {Server : Type} (host : Host Server).

Definition fetchConversations (token : value) : PM Server state unit :=
  update (setLoading true);;
  ptry_finally
    (ptry_catch
       (resp ← lift (AuthStoreFetch.fetch host
                       (page_request "GET" "/chat/conversations" token NoBody));
        if AuthStoreFetch.ok resp then
          data ← lift (AuthStoreFetch.json host resp);
          listed ← lift (read_prop host data "conversations");
          update (setConversations (or_else listed (VArr [])))
        else pthrow (new_Error (VStr "Failed to fetch conversations")))
       (λ e, update (setError (message e))))
    (update (setLoading false)).

(** [confirmed] is the answer of [window.confirm]. *)
Definition deleteConversation (token : value) (confirmed : bool)
    (conversationId : value) : PM Server state unit :=
  if negb confirmed then mret tt
  else
    ptry_catch
      (resp ← lift (AuthStoreFetch.fetch host
                      (page_request "DELETE"
                         ("/chat/conversations/" ++ to_string conversationId)
                         token NoBody));
       if AuthStoreFetch.ok resp then fetchConversations token
       else pthrow (new_Error (VStr "Failed to delete conversation")))
      (λ e, update (setError (message e))).

End WithHost.
End Conversations.

(** *** The knowledge base page *)

Module KnowledgeBase.

(** The cells [documents], [loading], [message] and [error]; [uploading]
    and [selectedFile] belong to the upload form alone. *)
Record state : Type := {
  documents : value;
  loading : bool;
  notice : string;
  failure : string;
}.

Definition setDocuments (v : value) (st : state) : state :=
  {| documents := v; loading := loading st; notice := notice st;
     failure := failure st |}.

Definition setLoading (b : bool) (st : state) : state :=
  {| documents := documents st; loading := b; notice := notice st;
     failure := failure st |}.

Definition setMessage (m : string) (st : state) : state :=
  {| documents := documents st; loading := loading st; notice := m;
     failure := failure st |}.

Definition setError (e : string) (st : state) : state :=
  {| documents := documents st; loading := loading st; notice := notice st;
     failure := e |}.

Section WithHost.
Context {Server : Type} (host : Host Server).

Definition fetchDocuments (token : value) : PM Server state unit :=
  update (setLoading true);;
  ptry_finally
    (ptry_catch
       (resp ← lift (AuthStoreFetch.fetch host
                       (page_request "GET" "/files/knowledge-base" token NoBody));
        if AuthStoreFetch.ok resp then
          data ← lift (AuthStoreFetch.json host resp);
          listed ← lift (read_prop host data "documents");
          update (setDocuments (or_else listed (VArr [])))
        else mret tt)
       (λ _, update (setError "Failed to fetch documents")))
    (update (setLoading false)).

Definition deleteDocument (token : value) (confirmed : bool)
    (documentId : value) : PM Server state unit :=
  if negb confirmed then mret tt
  else
    ptry_catch
      (resp ← lift (AuthStoreFetch.fetch host
                      (page_request "DELETE" ("/files/" ++ to_string documentId)
                         token NoBody));
       if AuthStoreFetch.ok resp then
         update (setMessage "Document deleted successfully");;
         fetchDocuments token
       else pthrow (new_Error (VStr "Failed to delete document")))
      (λ e, update (setError (message e))).

End WithHost.
End KnowledgeBase.

(** *** The settings page *)

Module Settings.

(** The three inputs of the form; an input holds a string. *)
Record password_form : Type := {
  currentPassword : string;
  newPassword : string;
  confirmPassword : string;
}.

Definition empty_form : password_form :=
  {| currentPassword := ""; newPassword := ""; confirmPassword := "" |}.

(** The cells [passwordData], [loading], [message] and [error]. *)
Record state : Type := {
  passwordData : password_form;
  loading : bool;
  notice : string;
  failure : string;
}.

Definition setPasswordData (f : password_form) (st : state) : state :=
  {| passwordData := f; loading := loading st; notice := notice st;
     failure := failure st |}.

Definition setLoading (b : bool) (st : state) : state :=
  {| passwordData := passwordData st; loading := b; notice := notice st;
     failure := failure st |}.

Definition setMessage (m : string) (st : state) : state :=
  {| passwordData := passwordData st; loading := loading st; notice := m;
     failure := failure st |}.

Definition setError (e : string) (st : state) : state :=
  {| passwordData := passwordData st; loading := loading st; notice := notice st;
     failure := e |}.

Section WithHost.
Context {Server : Type} (host : Host Server).

(** The handler reads [passwordData] as the component last rendered it:
    the cell as it is when the handler starts. *)
Definition handlePasswordChange (token : value) : PM Server state unit :=
  form ← gets passwordData;
  update (setLoading true);;
  update (setError "");;
  update (setMessage "");;
  if negb (String.eqb (newPassword form) (confirmPassword form)) then
    update (setError "New passwords do not match");;
    update (setLoading false)
  else
    ptry_finally
      (ptry_catch
         (resp ← lift (AuthStoreFetch.fetch host
                         (page_request "PUT" "/users/password" token
                            (FormBody [("current_password", currentPassword form);
                                       ("new_password", newPassword form)])));
          data ← lift (AuthStoreFetch.json host resp);
          if AuthStoreFetch.ok resp then
            update (setMessage "Password changed successfully");;
            update (setPasswordData empty_form)
          else
            detail ← lift (read_prop host data "detail");
            pthrow (new_Error (or_else detail (VStr "Failed to change password"))))
         (λ e, update (setError (message e))))
      (update (setLoading false)).

End WithHost.
End Settings.

(** ** Vocabulary of the statements *)

(** A request that did not get a 2xx answer: it did not complete, or the
    server answered with another status. *)
Definition rejects (out : net_outcome) : bool :=
  match out with
  | NetworkError _ => true
  | HttpResponse c _ => negb (status_ok c)
  end.

(** The persisted token, if any: the [token] of the [state] of the stored
    document, [undefined] when there is no entry, no document, no state or
    no token in it. *)
Definition stored_token (item : option text) : value :=
  match item with
  | Some (JsonText doc) => opt_prop (opt_prop doc "state") "token"
  | _ => VUndefined
  end.

(** The detail message the server provides, as axios reads it:
    [undefined] when there is no answer or no [detail] in it. *)
Definition server_detail (out : net_outcome) : value :=
  match out with
  | NetworkError _ => VUndefined
  | HttpResponse _ content =>
      if nullish (Api.axios_data content) then VUndefined
      else opt_prop (Api.axios_data content) "detail"
  end.

(** The session with one field set. *)
Definition with_error (e : value) (s : Session) : Session :=
  {| user := user s; token := token s; isAuthenticated := isAuthenticated s;
     isLoading := isLoading s; error := e |}.

Definition with_user (u : value) (s : Session) : Session :=
  {| user := u; token := token s; isAuthenticated := isAuthenticated s;
     isLoading := isLoading s; error := error s |}.

(** A session that is not authenticated and holds no token. *)
Definition unauthenticated (s : Session) : Prop :=
  isAuthenticated s = VBool false ∧ truthy (token s) = false.

(** The requests the store sends through [api]: [login] and [register]
    after their first [set], [initializeAuth] after it has set the default
    header. *)
Definition login_call {Server : Type} (w : World Server) (credentials : value) : request :=
  Api.outgoing
    (fst (AuthStore.set
            {| p_user := None; p_token := None; p_isAuthenticated := None;
               p_isLoading := Some (VBool true); p_error := Some VNull |} w))
    "POST" "/auth/login" ∅ (JsonData credentials).

Definition register_call {Server : Type} (w : World Server) (userData : value) : request :=
  Api.outgoing
    (fst (AuthStore.set
            {| p_user := None; p_token := None; p_isAuthenticated := None;
               p_isLoading := Some (VBool true); p_error := Some VNull |} w))
    "POST" "/auth/register" ∅ (JsonData userData).

Definition profile_call {Server : Type} (w : World Server) : request :=
  Api.outgoing
    (with_default_auth (Some ("Bearer " ++ to_string (token (session w)))) w)
    "GET" "/users/profile" ∅ NoBody.


(** ** Sample hosts and tabs *)

(** A server that answers from a script, whatever the request, and no more
    once the script is over. *)
Definition scripted : Host (list net_outcome) :=
  {| transport := λ srv _,
       match srv with
       | out :: rest => (rest, out)
       | [] => ([], NetworkError "Failed to fetch")
       end;
     syntax_error_message := λ _, "Unexpected token < in JSON at position 0";
     type_error_message := λ _ k, "Cannot read properties of null (reading '" ++ k ++ "')" |}.

(** A tab just opened on an empty [localStorage]. *)
Definition fresh_tab (script : list net_outcome) : World (list net_outcome) :=
  {| session := initial_session; storage := None; location := "/";
     default_auth := None; server := script; log := [] |}.

(** A tab in which alice is logged in with token [t1]. *)
Definition alice : value :=
  VObj {[ "username" := VStr "alice"; "email" := VStr "alice@x.com" ]}.

Definition alice_session : Session :=
  {| user := alice; token := VStr "t1"; isAuthenticated := VBool true;
     isLoading := VBool false; error := VNull |}.

Definition alice_tab (script : list net_outcome) : World (list net_outcome) :=
  {| session := alice_session;
     storage := Some (AuthStore.persisted alice_session);
     location := "/chat"; default_auth := Some "Bearer t1";
     server := script; log := [] |}.

(** The same tab, with the error of an earlier action still shown. *)
Definition alice_after_error : Session :=
  with_error (VStr "Profile update failed") alice_session.

Definition alice_tab_with_error (script : list net_outcome) : World (list net_outcome) :=
  with_session alice_after_error (alice_tab script).

(** A tab reopened on the storage that alice's session left. *)
Definition reopened_tab (script : list net_outcome) : World (list net_outcome) :=
  {| session := AuthStore.rehydrate (Some (AuthStore.persisted alice_session));
     storage := Some (AuthStore.persisted alice_session);
     location := "/"; default_auth := None; server := script; log := [] |}.

(** The storage holds what [persist] writes for the session. *)
Definition coherent {Server : Type} (w : World Server) : Prop :=
  storage w = Some (AuthStore.persisted (session w)).

(** The actions of authStore.js, and a run of some of them in a row. *)
Inductive store_action : Type :=
| Login (credentials : value)
| Register (userData : value)
| Logout
| UpdateProfile (profileData : value)
| ChangePassword (passwordData : value)
| ClearError
| InitializeAuth.

Definition perform {Server : Type} (host : Host Server) (a : store_action)
    : M Server unit :=
  match a with
  | Login credentials => AuthStore.login host credentials;; mret tt
  | Register userData => AuthStore.register host userData;; mret tt
  | Logout => AuthStore.logout
  | UpdateProfile profileData => AuthStore.updateProfile host profileData;; mret tt
  | ChangePassword passwordData => AuthStore.changePassword host passwordData;; mret tt
  | ClearError => AuthStore.clearError
  | InitializeAuth => AuthStore.initializeAuth host
  end.

Fixpoint perform_all {Server : Type} (host : Host Server) (l : list store_action)
    : M Server unit :=
  match l with
  | [] => mret tt
  | a :: l' => perform host a;; perform_all host l'
  end.

(** The calls of the resource clients of api.js that the model covers, the
    action each one is, and the method and path it is written with. *)
Inductive resource_call : Type :=
| SendMessage (message conversationId : value)
| GetConversation (conversationId : value)
| DeleteConversation (conversationId : value)
| GetKnowledgeBase
| DeleteDocument (documentId : value)
| GetPlugins
| ExecutePlugin (pluginName params : value)
| GetProfile
| PutProfile (profileData : value)
| HealthCheck.

Definition call {Server : Type} (host : Host Server) (c : resource_call)
    : M Server http_response :=
  match c with
  | SendMessage message conversationId => Api.sendMessage host message conversationId
  | GetConversation conversationId => chatAPI.getConversation host conversationId
  | DeleteConversation conversationId => chatAPI.deleteConversation host conversationId
  | GetKnowledgeBase => fileAPI.getKnowledgeBase host
  | DeleteDocument documentId => fileAPI.deleteDocument host documentId
  | GetPlugins => pluginAPI.getPlugins host
  | ExecutePlugin pluginName params => pluginAPI.executePlugin host pluginName params
  | GetProfile => userAPI.getProfile host
  | PutProfile profileData => userAPI.updateProfile host profileData
  | HealthCheck => healthAPI.check host
  end.

(** The tab after one request made with [fetch]. *)
Definition after_request {Server : Type} (host : Host Server) (req : request)
    (w : World Server) : World Server :=
  logged (Sent req) (with_server (fst (transport host (server w) req)) w).

(** The tab as far as the store and the wrapper go. *)
Definition same_tab {Server : Type} (w w' : World Server) : Prop :=
  session w' = session w ∧ storage w' = storage w ∧
  location w' = location w ∧ default_auth w' = default_auth w.

(** The settings form as typed, and the pages as first rendered. *)
Definition typed_form (confirm : string) : Settings.state :=
  {| Settings.passwordData :=
       {| Settings.currentPassword := "a"; Settings.newPassword := "b";
          Settings.confirmPassword := confirm |};
     Settings.loading := false; Settings.notice := ""; Settings.failure := "" |}.

Definition empty_list : Conversations.state :=
  {| Conversations.conversations := VArr []; Conversations.loading := false;
     Conversations.failure := "" |}.

(** A request as a call hands it to the interceptor. *)
Definition sample_request : request :=
  {| method := "GET"; url := "/plugins";
     headers := {[ "Content-Type" := "application/json";
                   "Authorization" := "Bearer old" ]};
     body := NoBody |}.

(** An answer with status 401. *)
Definition unauthorized (out : net_outcome) : bool :=
  match out with
  | NetworkError _ => false
  | HttpResponse c _ => (c =? 401)%Z
  end.

(** The method and the path each call is written with. *)
Definition endpoint (c : resource_call) : string * string :=
  match c with
  | SendMessage _ _ => ("POST", "/chat/send")
  | GetConversation conversationId =>
      ("GET", "/chat/conversations/" ++ to_string conversationId)
  | DeleteConversation conversationId =>
      ("DELETE", "/chat/conversations/" ++ to_string conversationId)
  | GetKnowledgeBase => ("GET", "/files/knowledge-base")
  | DeleteDocument documentId => ("DELETE", "/files/" ++ to_string documentId)
  | GetPlugins => ("GET", "/plugins")
  | ExecutePlugin pluginName _ =>
      ("POST", "/plugins/" ++ to_string pluginName ++ "/execute")
  | GetProfile => ("GET", "/users/profile")
  | PutProfile _ => ("PUT", "/users/profile")
  | HealthCheck => ("GET", "/health")
  end.

(** A server that gives the same answer to every request. *)
Definition constant_server (out : net_outcome) : Host unit :=
  {| transport := λ srv _, (srv, out);
     syntax_error_message := λ _, "Unexpected token < in JSON at position 0";
     type_error_message := λ _ k, "Cannot read properties of null (reading '" ++ k ++ "')" |}.

Definition alice_tab_on (srv : unit) : World unit :=
  {| session := alice_session;
     storage := Some (AuthStore.persisted alice_session);
     location := "/chat"; default_auth := Some "Bearer t1";
     server := srv; log := [] |}.


(** A server that knows one token: it answers a request that carries
    [Bearer good] with alice's profile, and any other with 401. *)
Definition checking_server : Host unit :=
  {| transport := λ srv req,
       (srv,
        if bool_decide (headers req !! "Authorization" = Some "Bearer good")
        then HttpResponse 200 (JsonText alice)
        else HttpResponse 401 (JsonText (VObj {[ "detail" := VStr "Invalid token" ]})));
     syntax_error_message := λ _, "Unexpected token < in JSON at position 0";
     type_error_message := λ _ k, "Cannot read properties of null (reading '" ++ k ++ "')" |}.

(** A tab reopened on a storage that holds the token [t]. *)
Definition session_with_token (t : string) : Session :=
  {| user := VNull; token := VStr t; isAuthenticated := VBool false;
     isLoading := VBool false; error := VNull |}.

Definition tab_with_token (t : string) : World unit :=
  {| session := session_with_token t;
     storage := Some (AuthStore.persisted (session_with_token t));
     location := "/"; default_auth := None; server := tt; log := [] |}.


Arguments AuthStore.persisted : simpl never.
Arguments jsonify : simpl never.
Arguments to_string : simpl never.
Arguments str_or : simpl never.
Arguments pretty : simpl never.

(** * Properties *)

(** ** Values *)

Lemma truthy_jsonify (v : value) : truthy (jsonify v) = truthy v.
Proof. destruct v; reflexivity. Qed.

Lemma str_or_nonempty (a b : string) : b ≠ "" → str_or a b ≠ "".
Proof.
  intros Hb. unfold str_or. destruct (String.eqb a "") eqn:E; [ exact Hb | ].
  apply String.eqb_neq in E. exact E.
Qed.

(** ** What [persist] writes and reads back *)

Lemma jsonify_obj (o : gmap string value) :
  jsonify (VObj o) =
    VObj (omap (λ x, match x with
                     | VUndefined => None
                     | _ => Some (jsonify x)
                     end) o).
Proof. reflexivity. Qed.

Lemma persisted_shape (s : Session) :
  AuthStore.persisted s =
    JsonText (VObj {[ "state" := VObj (match token s with
                                       | VUndefined => ∅
                                       | t => {[ "token" := jsonify t ]}
                                       end);
                      "version" := VNum number_zero ]}).
Proof.
  unfold AuthStore.persisted, JSON_stringify, AuthStore.partialize.
  f_equal. rewrite jsonify_obj. f_equal.
  erewrite omap_insert_Some; [ | reflexivity ].
  erewrite omap_singleton_Some; [ | reflexivity ].
  f_equal. rewrite jsonify_obj. f_equal.
  destruct (token s).
  - apply omap_singleton_None. reflexivity.
  - apply omap_singleton_Some. reflexivity.
  - apply omap_singleton_Some. reflexivity.
  - apply omap_singleton_Some. reflexivity.
  - apply omap_singleton_Some. reflexivity.
  - apply omap_singleton_Some. reflexivity.
  - apply omap_singleton_Some. reflexivity.
Qed.

Lemma stored_token_persisted (s : Session) :
  stored_token (Some (AuthStore.persisted s)) = jsonify (token s).
Proof.
  rewrite persisted_shape. unfold stored_token, opt_prop, get_prop.
  rewrite lookup_insert_eq. simpl.
  destruct (token s); simpl; try (rewrite lookup_singleton_eq; reflexivity).
  reflexivity.
Qed.


(** ** The wrapper *)

Section ApiProperties.
Context {Server : Type} (host : Host Server).

(** The interceptor in terms of the persisted token. *)
Lemma request_interceptor_stored_token (item : option text) (config : request) :
  Api.request_interceptor item config =
    if truthy (stored_token item)
    then Api.set_header "Authorization"
           ("Bearer " ++ to_string (stored_token item)) config
    else config.
Proof.
  destruct item as [[doc | raw] | ]; simpl; [ | destruct (negb _); reflexivity | reflexivity ].
  unfold opt_prop. destruct doc; simpl; try reflexivity.
  destruct (default VUndefined (o !! "state")) eqn:E; simpl; reflexivity.
Qed.

(** One call through [api], in terms of the answer of the network. *)
Lemma api_request_run (w : World Server) (meth path : string)
    (own : gmap string string) (sent : payload) :
  let config := Api.outgoing w meth path own sent in
  let w1 := logged (Sent config)
              (with_server (fst (transport host (server w) config)) w) in
  Api.api_request host meth path own sent w =
    match snd (transport host (server w) config) with
    | NetworkError msg => (w1, Thrown {| message := msg; response := None |})
    | HttpResponse c content =>
        let r := {| status := c; data := Api.axios_data content |} in
        let e := {| message := "Request failed with status code " ++ pretty c;
                    response := Some r |} in
        if status_ok c then (w1, Returned r)
        else if (c =? 401)%Z
             then (logged (Navigated "/login") (with_location "/login"
                     (logged (StorageRemoved "auth-storage") (with_storage None w1))),
                   Thrown e)
             else (w1, Thrown e)
    end.
Proof.
  intros config w1. subst w1. unfold Api.api_request, Api.dispatch.
  fold config. unfold mbind, M_bind.
  destruct (transport host (server w) config) as [srv out]. simpl.
  destruct out as [msg | c content]; simpl; [ reflexivity | ].
  destruct (status_ok c); simpl; [ reflexivity | ].
  unfold Api.response_rejected, Api.is_401, mbind, M_bind. simpl.
  destruct (c =? 401)%Z; reflexivity.
Qed.

Lemma outgoing_url (w : World Server) (meth path : string)
    (own : gmap string string) (sent : payload) :
  url (Api.outgoing w meth path own sent) = path.
Proof.
  unfold Api.outgoing. rewrite request_interceptor_stored_token.
  destruct (truthy _); reflexivity.
Qed.

(** A rejected call through [api] throws an error that carries the
    server's detail, and leaves the store alone. *)
Lemma api_request_rejected (w : World Server) (meth path : string)
    (own : gmap string string) (sent : payload) :
  rejects (snd (transport host (server w) (Api.outgoing w meth path own sent))) = true →
  ∃ w1 e,
    Api.api_request host meth path own sent w = (w1, Thrown e) ∧
    session w1 = session w ∧ default_auth w1 = default_auth w ∧
    AuthStore.error_detail e
      = server_detail (snd (transport host (server w) (Api.outgoing w meth path own sent))).
Proof.
  intros Hr. rewrite api_request_run.
  destruct (snd (transport host (server w) _)) as [msg | c content]; simpl in *.
  - do 2 eexists. repeat split; reflexivity.
  - apply negb_true_iff in Hr. rewrite Hr.
    destruct (c =? 401)%Z; do 2 eexists; repeat split; reflexivity.
Qed.

(** An accepted call returns the response and leaves the store alone. *)
Lemma api_request_accepted (w : World Server) (meth path : string)
    (own : gmap string string) (sent : payload) (c : Z) (content : text) :
  snd (transport host (server w) (Api.outgoing w meth path own sent))
    = HttpResponse c content →
  status_ok c = true →
  ∃ w1,
    Api.api_request host meth path own sent w
      = (w1, Returned {| status := c; data := Api.axios_data content |}) ∧
    session w1 = session w ∧ storage w1 = storage w ∧
    default_auth w1 = default_auth w ∧ location w1 = location w.
Proof.
  intros Hout Hok. rewrite api_request_run, Hout. simpl. rewrite Hok.
  eexists. repeat split; reflexivity.
Qed.
End ApiProperties.

Section WrapperClaims.
Context {Server : Type} (host : Host Server).

(** C4, as the code has it. For every request made through the wrapper,
    whatever its method, path, headers and body, that is answered with
    status 401: the wrapper removes the persisted entry, sets the location
    to the login entry point, and rejects with the error of that response;
    the request is sent once and the forced logout happens once. The
    wrapper leaves the store in memory as it is: the session is
    unauthenticated in that a store started from the cleared storage is
    the initial one. *)
Theorem unauthorized_forces_logout_once (w : World Server) (meth path : string)
    (own : gmap string string) (sent : payload) (content : text) :
  snd (transport host (server w) (Api.outgoing w meth path own sent))
    = HttpResponse 401 content →
  let w' := fst (Api.api_request host meth path own sent w) in
  storage w' = None ∧
  location w' = "/login" ∧
  log w' = (log w ++ [Sent (Api.outgoing w meth path own sent);
                      StorageRemoved "auth-storage"; Navigated "/login"])%list ∧
  (∃ e, snd (Api.api_request host meth path own sent w) = Thrown e ∧
        response e = Some {| status := 401; data := Api.axios_data content |}) ∧
  session w' = session w ∧
  AuthStore.rehydrate (storage w') = initial_session.
Proof.
  intros Hout. rewrite api_request_run, Hout. simpl.
  repeat split; try reflexivity.
  - rewrite <- !app_assoc. reflexivity.
  - eexists. split; reflexivity.
Qed.

(** C5, as the code has it. For every request made through the wrapper: if
    the persisted token is truthy, the Authorization header is [Bearer]
    followed by that token; otherwise the wrapper adds no header, and the
    request carries the Authorization header of the call, else the one of
    the axios defaults, else none. *)
Theorem outgoing_authorization (w : World Server) (meth path : string)
    (own : gmap string string) (sent : payload) :
  headers (Api.outgoing w meth path own sent) !! "Authorization" =
    if truthy (stored_token (storage w))
    then Some ("Bearer " ++ to_string (stored_token (storage w)))
    else match own !! "Authorization" with
         | Some h => Some h
         | None => default_auth w
         end.
Proof.
  unfold Api.outgoing. rewrite request_interceptor_stored_token.
  destruct (truthy (stored_token (storage w))); simpl.
  - apply lookup_insert_eq.
  - unfold Api.call_headers. rewrite lookup_union.
    destruct (own !! "Authorization") as [h | ]; simpl.
    + destruct (_ !! "Authorization"); reflexivity.
    + rewrite (left_id None _). rewrite lookup_union.
      destruct (default_auth w) as [h | ]; simpl.
      * rewrite lookup_singleton_eq. reflexivity.
      * reflexivity.
Qed.

(** C10. The body that [chatAPI.sendMessage] posts to [/chat/send] has a
    [conversation_id] field exactly when [conversationId] is truthy; with
    the default [null], and with the [undefined] that the default
    replaces, it is the [message] field alone. *)
Theorem sendMessage_conversation_id (w : World Server) (message conversationId : value) :
  ("conversation_id" ∈ (Api.sendMessage_formData message conversationId).*1
     ↔ truthy conversationId = true) ∧
  Api.sendMessage_formData message VNull = [("message", to_string message)] ∧
  Api.sendMessage_formData message VUndefined = [("message", to_string message)] ∧
  ∃ config rest,
    log (fst (Api.sendMessage host message conversationId w))
      = (log w ++ Sent config :: rest)%list ∧
    method config = "POST" ∧ url config = "/chat/send" ∧
    body config = FormBody (Api.sendMessage_formData message conversationId).
Proof.
  split; [ | split; [ reflexivity | split; [ reflexivity | ] ] ].
  - unfold Api.sendMessage_formData.
    assert (Ht : truthy (match conversationId with VUndefined => VNull | v => v end)
                 = truthy conversationId) by (destruct conversationId; reflexivity).
    rewrite Ht. destruct (truthy conversationId); simpl.
    + split; [ reflexivity | ]. intros _. set_solver.
    + split; [ | discriminate ]. intros H.
      apply list_elem_of_singleton in H. discriminate.
  - unfold Api.sendMessage, Api.post. rewrite api_request_run.
    set (config := Api.outgoing w "POST" "/chat/send" ∅ _).
    assert (Hc : method config = "POST" ∧ url config = "/chat/send" ∧
                 body config = FormBody (Api.sendMessage_formData message conversationId)).
    { subst config. unfold Api.outgoing.
      rewrite request_interceptor_stored_token.
      destruct (truthy _); simpl; auto. }
    destruct (snd (transport host (server w) config)) as [msg | c content]; simpl.
    + exists config, []. split; [ reflexivity | exact Hc ].
    + destruct (status_ok c); [ exists config, []; split; [ reflexivity | exact Hc ] | ].
      destruct (c =? 401)%Z; simpl.
      * exists config, [StorageRemoved "auth-storage"; Navigated "/login"].
        split; [ | exact Hc ]. rewrite <- !app_assoc. reflexivity.
      * exists config, []. split; [ reflexivity | exact Hc ].
Qed.
End WrapperClaims.

(** ** The store *)

Section StoreClaims.
Context {Server : Type} (host : Host Server).

Lemma set_run (partial : patch) (w : World Server) :
  AuthStore.set partial w =
    (with_storage (Some (AuthStore.persisted (assign (session w) partial)))
                  (with_session (assign (session w) partial) w),
     Returned tt).
Proof. reflexivity. Qed.

(** C6. From any state, [logout] leaves the initial empty session and no
    default Authorization header, and a second [logout] changes nothing. *)
Theorem logout_idempotent (w : World Server) :
  let w1 := fst (AuthStore.logout w) in
  session w1 = initial_session ∧
  default_auth w1 = None ∧
  snd (AuthStore.logout w) = Returned tt ∧
  fst (AuthStore.logout w1) = w1.
Proof. repeat split. Qed.

(** [logout] of the [fetch]-based revision resets the session the same
    way and is idempotent too; it leaves the default header alone. *)
Lemma fetch_logout_idempotent (w : World Server) :
  let w1 := fst (AuthStoreFetch.logout w) in
  session w1 = initial_session ∧
  default_auth w1 = default_auth w ∧
  fst (AuthStoreFetch.logout w1) = w1.
Proof. repeat split. Qed.

(** C3. When the session holds a token and the profile endpoint rejects
    the request that [initializeAuth] sends with it, [initializeAuth] ends
    in the state that [logout] produces: the initial empty session, no
    default header, no token in the storage. *)
Theorem initializeAuth_rejected_is_logout (w : World Server) :
  truthy (token (session w)) = true →
  rejects (snd (transport host (server w) (profile_call w))) = true →
  let w' := fst (AuthStore.initializeAuth host w) in
  session w' = session (fst (AuthStore.logout w)) ∧
  session w' = initial_session ∧
  storage w' = storage (fst (AuthStore.logout w)) ∧
  default_auth w' = None ∧
  stored_token (storage w') = VNull ∧
  snd (AuthStore.initializeAuth host w) = Returned tt.
Proof.
  intros Htok Hrej.
  unfold AuthStore.initializeAuth, mbind, M_bind, get. simpl.
  rewrite Htok. unfold try_catch, mbind, M_bind, AuthStore.set_default_auth, modify.
  unfold Api.get.
  set (w0 := with_default_auth _ w).
  destruct (api_request_rejected host w0 "GET" "/users/profile" ∅ NoBody)
    as (w1 & e & Hrun & _).
  { exact Hrej. }
  rewrite Hrun. repeat split.
Qed.

(** C8. When the server accepts the update, [updateProfile] returns
    success and replaces the user by the current user's fields overlaid
    with the returned ones: a field the response does not carry keeps its
    value, a field it carries takes the returned one, and no other field
    of the session changes. When the request is rejected, it sets
    [error] alone, to the server's detail or else the default, and
    returns a failure object instead of throwing. *)
Theorem updateProfile_shallow_merge (w : World Server) (profileData : value) :
  let out := snd (transport host (server w)
                    (Api.outgoing w "PUT" "/users/profile" ∅ (JsonData profileData))) in
  let w' := fst (AuthStore.updateProfile host profileData w) in
  let result := snd (AuthStore.updateProfile host profileData w) in
  (∀ c content, out = HttpResponse c content → status_ok c = true →
     result = Returned (VObj {[ "success" := VBool true ]}) ∧
     session w' = with_user (VObj (spread (Api.axios_data content)
                                     ∪ spread (user (session w)))) (session w) ∧
     (∀ k, spread (Api.axios_data content) !! k = None →
           spread (user (session w')) !! k = spread (user (session w)) !! k) ∧
     (∀ k v, spread (Api.axios_data content) !! k = Some v →
             spread (user (session w')) !! k = Some v)) ∧
  (rejects out = true →
     let msg := or_else (server_detail out) (VStr "Profile update failed") in
     result = Returned (VObj {[ "success" := VBool false; "error" := msg ]}) ∧
     session w' = with_error msg (session w)).
Proof.
  intros out w' result. subst out w' result. split.
  - intros c content Hout Hok.
    destruct (api_request_accepted host w _ _ _ _ c content Hout Hok)
      as (w1 & Hrun & Hs & _).
    unfold AuthStore.updateProfile, try_catch, mbind, M_bind, Api.put, get.
    rewrite Hrun. simpl. rewrite Hs.
    repeat split.
    + intros k Hk. rewrite lookup_union, Hk. apply (left_id None _).
    + intros k v Hk. rewrite lookup_union, Hk.
      destruct (spread (user (session w)) !! k); reflexivity.
  - intros Hr.
    destruct (api_request_rejected host w _ _ _ _ Hr) as (w1 & e & Hrun & Hs & _ & Hd).
    unfold AuthStore.updateProfile, try_catch, mbind, M_bind, Api.put.
    rewrite Hrun. simpl. rewrite Hs, Hd. split; reflexivity.
Qed.

(** C9, as the code has it. When the server accepts the change,
    [changePassword] returns success and leaves every field of the
    session as it was, [error] included. When the request is rejected, it
    sets [error] alone, to the server's detail or else the default, and
    returns a failure object instead of throwing. *)
Theorem changePassword_session (w : World Server) (passwordData : value) :
  let out := snd (transport host (server w)
                    (Api.outgoing w "PUT" "/users/password" ∅ (JsonData passwordData))) in
  let w' := fst (AuthStore.changePassword host passwordData w) in
  let result := snd (AuthStore.changePassword host passwordData w) in
  (∀ c content, out = HttpResponse c content → status_ok c = true →
     result = Returned (VObj {[ "success" := VBool true ]}) ∧
     session w' = session w) ∧
  (rejects out = true →
     let msg := or_else (server_detail out) (VStr "Password change failed") in
     result = Returned (VObj {[ "success" := VBool false; "error" := msg ]}) ∧
     session w' = with_error msg (session w)).
Proof.
  intros out w' result. subst out w' result. split.
  - intros c content Hout Hok.
    destruct (api_request_accepted host w _ _ _ _ c content Hout Hok)
      as (w1 & Hrun & Hs & _).
    unfold AuthStore.changePassword, try_catch, mbind, M_bind, Api.put.
    rewrite Hrun. simpl. auto.
  - intros Hr.
    destruct (api_request_rejected host w _ _ _ _ Hr) as (w1 & e & Hrun & Hs & _ & Hd).
    unfold AuthStore.changePassword, try_catch, mbind, M_bind, Api.put.
    rewrite Hrun. simpl. rewrite Hs, Hd. split; reflexivity.
Qed.
End StoreClaims.

Section PersistClaims.
Context {Server : Type} (host : Host Server).



End PersistClaims.

(** ** [login] *)

Section LoginClaims.
Context {Server : Type} (host : Host Server).

(** [login] of authStore.js, accepted: the user comes from the login
    response itself, and the token becomes the default header. *)
Lemma axios_login_accepted (w : World Server) (credentials : value)
    (c : Z) (content : text) :
  snd (transport host (server w) (login_call w credentials))
    = HttpResponse c content →
  status_ok c = true →
  nullish (Api.axios_data content) = false →
  let w' := fst (AuthStore.login host credentials w) in
  let tok := opt_prop (Api.axios_data content) "access_token" in
  snd (AuthStore.login host credentials w)
    = Returned (VObj {[ "success" := VBool true ]}) ∧
  session w' = {| user := opt_prop (Api.axios_data content) "user"; token := tok;
                  isAuthenticated := VBool true; isLoading := VBool false;
                  error := VNull |} ∧
  default_auth w' = Some ("Bearer " ++ to_string tok).
Proof.
  intros Hacc Hok Hn.
  unfold AuthStore.login, try_catch, mbind, M_bind, Api.post.
  rewrite set_run.
  set (w0 := with_storage _ _).
  destruct (api_request_accepted host w0 "POST" "/auth/login" ∅
              (JsonData credentials) c content) as (w1 & Hrun & Hs & _ & Hd & _).
  { exact Hacc. }
  { exact Hok. }
  rewrite Hrun. simpl. unfold read_prop, opt_prop.
  destruct (Api.axios_data content); simpl in *; try discriminate;
    repeat split; reflexivity.
Qed.

(** [login] of authStore.js, rejected: it records the server's detail or
    else the default, and returns a failure object instead of
    throwing. *)
Lemma axios_login_rejected (w : World Server) (credentials : value) :
  let out := snd (transport host (server w) (login_call w credentials)) in
  rejects out = true →
  let msg := or_else (server_detail out) (VStr "Login failed") in
  snd (AuthStore.login host credentials w)
    = Returned (VObj {[ "success" := VBool false; "error" := msg ]}) ∧
  session (fst (AuthStore.login host credentials w))
    = {| user := user (session w); token := token (session w);
         isAuthenticated := isAuthenticated (session w);
         isLoading := VBool false; error := msg |}.
Proof.
  intros out Hr. subst out.
  unfold AuthStore.login, try_catch, mbind, M_bind, Api.post.
  rewrite set_run.
  set (w0 := with_storage _ _).
  destruct (api_request_rejected host w0 "POST" "/auth/login" ∅ (JsonData credentials))
    as (w1 & e & Hrun & Hs & _ & Hd).
  { exact Hr. }
  rewrite Hrun. simpl. rewrite Hs, Hd. split; reflexivity.
Qed.

Lemma fetch_run (config : request) (w : World Server) :
  AuthStoreFetch.fetch host config w =
    let w' := logged (Sent config)
                (with_server (fst (transport host (server w) config)) w) in
    match snd (transport host (server w) config) with
    | NetworkError msg => (w', Thrown {| message := msg; response := None |})
    | HttpResponse c t =>
        (w', Returned {| AuthStoreFetch.code := c; AuthStoreFetch.content := t |})
    end.
Proof.
  unfold AuthStoreFetch.fetch.
  destruct (transport host (server w) config) as [srv out]. reflexivity.
Qed.


(** C1, as the code has it. When the authentication endpoint answers 2xx
    with a JSON body, [login(username, password)] fails without asking for
    the profile if that body is [null]; otherwise it asks for the profile
    with the header [Bearer] followed by the [access_token] of the body.
    If the profile endpoint answers 2xx with a JSON body, the session ends
    with that body as user, the token, [isAuthenticated] true, [isLoading]
    false and no error. If it answers with another status, the session
    ends the same way with the record holding the submitted username
    alone as user. If the profile request does not complete, or its 2xx
    answer is not JSON, [login] fails. A [login] that fails throws, records
    the message of the failure as the error with [isLoading] false, and
    sets no token. *)
Theorem login_success (w : World Server) (username password : value)
    (srv1 : Server) (c1 : Z) (data : value) :
  transport host (server w) (AuthStoreFetch.login_request username password)
    = (srv1, HttpResponse c1 (JsonText data)) →
  status_ok c1 = true →
  let tok := opt_prop data "access_token" in
  let reply := snd (transport host srv1 (AuthStoreFetch.profile_request tok)) in
  let w' := fst (AuthStoreFetch.login host username password w) in
  let result := snd (AuthStoreFetch.login host username password w) in
  let logged_in (profile : value) :=
    result = Returned tt ∧
    session w' = {| user := profile; token := tok;
                    isAuthenticated := VBool true; isLoading := VBool false;
                    error := VNull |} in
  let failed (msg : string) :=
    result = Thrown (new_Error (VStr (str_or msg "Login failed"))) ∧
    session w' = {| user := user (session w); token := token (session w);
                    isAuthenticated := isAuthenticated (session w);
                    isLoading := VBool false;
                    error := VStr (str_or msg "Login failed") |} in
  if nullish data then
    failed (type_error_message host data "access_token") ∧
    log w' = (log w ++ [Sent (AuthStoreFetch.login_request username password)])%list
  else
    headers (AuthStoreFetch.profile_request tok) !! "Authorization"
      = Some ("Bearer " ++ to_string tok) ∧
    log w' = (log w ++ [Sent (AuthStoreFetch.login_request username password);
                        Sent (AuthStoreFetch.profile_request tok)])%list ∧
    match reply with
    | HttpResponse c2 content =>
        if status_ok c2 then
          match content with
          | JsonText profile => logged_in profile
          | RawText raw => failed (syntax_error_message host raw)
          end
        else logged_in (VObj {[ "username" := username ]})
    | NetworkError msg => failed msg
    end.
Proof.
  intros H1 Hok tok reply w' result logged_in failed.
  subst logged_in failed w' result reply.
  unfold AuthStoreFetch.login, try_catch, mbind, M_bind, AuthStoreFetch.fetch,
    AuthStoreFetch.json, AuthStoreFetch.ok, read_prop, throw, mret, M_ret.
  rewrite set_run. simpl server. rewrite H1. simpl. rewrite Hok. simpl.
  destruct (nullish data) eqn:Hn.
  - destruct data; simpl in *; try discriminate; repeat split.
  - assert (Htok : get_prop data "access_token" = Some tok).
    { subst tok. unfold opt_prop. destruct data; simpl in *; congruence. }
    rewrite Htok. simpl.
    split; [ apply lookup_singleton_eq | ].
    destruct (transport host srv1 (AuthStoreFetch.profile_request tok))
      as [srv2 [msg | c2 [profile | raw]]]; simpl.
    + split; [ rewrite <- !app_assoc; reflexivity | ]. split; reflexivity.
    + destruct (status_ok c2); simpl;
        (split; [ rewrite <- !app_assoc; reflexivity | ]); split; reflexivity.
    + destruct (status_ok c2); simpl;
        (split; [ rewrite <- !app_assoc; reflexivity | ]); split; reflexivity.
Qed.

(** C2, as the code has it. When the login request does not complete or
    is answered with a status that is not 2xx, [login(username, password)]
    throws an error with a message that is not empty, sets [isLoading] to
    false and [error] to that message, and leaves user, token and
    [isAuthenticated] as they were; the storage holds the token of that
    session and nothing else. When the body is JSON and not [null], the
    message is the string of the server's detail if the detail is truthy
    and its string is not empty, and the default otherwise. When the body
    is [null] or not JSON, or the request did not complete, the message is
    that of the type, parse or network error, with the default standing in
    for an empty one. *)
Theorem login_failure (w : World Server) (username password : value) :
  let out := snd (transport host (server w)
                    (AuthStoreFetch.login_request username password)) in
  let w' := fst (AuthStoreFetch.login host username password w) in
  rejects out = true →
  ∃ msg,
    snd (AuthStoreFetch.login host username password w)
      = Thrown (new_Error (VStr msg)) ∧
    session w' = {| user := user (session w); token := token (session w);
                    isAuthenticated := isAuthenticated (session w);
                    isLoading := VBool false; error := VStr msg |} ∧
    storage w' = Some (AuthStore.persisted (session w')) ∧
    (unauthenticated (session w) →
     unauthenticated (session w') ∧ truthy (stored_token (storage w')) = false) ∧
    msg ≠ "" ∧
    (∀ m, out = NetworkError m → msg = str_or m "Login failed") ∧
    (∀ c raw, out = HttpResponse c (RawText raw) →
              msg = str_or (syntax_error_message host raw) "Login failed") ∧
    (∀ c d, out = HttpResponse c (JsonText d) →
            msg = if nullish d
                  then str_or (type_error_message host d "detail") "Login failed"
                  else if truthy (opt_prop d "detail")
                       then str_or (to_string (opt_prop d "detail")) "Login failed"
                       else "Login failed").
Proof.
  intros out w' Hr. subst w' out.
  assert (Hkeep : ∀ (s : Session) (e : value),
            unauthenticated s →
            unauthenticated
              {| user := user s; token := token s;
                 isAuthenticated := isAuthenticated s;
                 isLoading := VBool false; error := e |} ∧
            truthy (stored_token (Some (AuthStore.persisted
              {| user := user s; token := token s;
                 isAuthenticated := isAuthenticated s;
                 isLoading := VBool false; error := e |}))) = false).
  { intros s e [Ha Ht]. split; [ split; assumption | ].
    rewrite stored_token_persisted, truthy_jsonify. exact Ht. }
  unfold AuthStoreFetch.login, try_catch, mbind, M_bind, AuthStoreFetch.fetch,
    AuthStoreFetch.json, AuthStoreFetch.ok, read_prop, throw, mret, M_ret.
  rewrite set_run. simpl server.
  destruct (transport host (server w) _) as [srv [m | c [d | raw]]];
    simpl in Hr |- *; rewrite ?Hr; simpl.
  - exists (str_or m "Login failed").
    split; [ reflexivity | ]. split; [ reflexivity | ]. split; [ reflexivity | ].
    split; [ apply Hkeep | ].
    split; [ apply str_or_nonempty; discriminate | ].
    split; [ | split; discriminate ].
    intros m' Hm. inversion Hm. reflexivity.
  - destruct (get_prop d "detail") as [x | ] eqn:Ed; simpl.
    + eexists.
      split; [ reflexivity | ]. split; [ reflexivity | ]. split; [ reflexivity | ].
      split; [ apply Hkeep | ].
      split; [ apply str_or_nonempty; discriminate | ].
      split; [ discriminate | split; [ discriminate | ] ].
      intros c' d' H. inversion H; subst d'.
      assert (Hn : nullish d = false) by (destruct d; simpl in Ed |- *; congruence).
      rewrite Hn.
      unfold opt_prop. rewrite Ed. simpl.
      unfold or_else. destruct (truthy x) eqn:Ex; simpl.
      * destruct x; try reflexivity. discriminate Ex.
      * reflexivity.
    + eexists.
      split; [ reflexivity | ]. split; [ reflexivity | ]. split; [ reflexivity | ].
      split; [ apply Hkeep | ].
      split; [ apply str_or_nonempty; discriminate | ].
      split; [ discriminate | split; [ discriminate | ] ].
      intros c' d' H. inversion H; subst d'.
      destruct d; simpl in Ed |- *; try discriminate; reflexivity.
  - eexists.
    split; [ reflexivity | ]. split; [ reflexivity | ]. split; [ reflexivity | ].
    split; [ apply Hkeep | ].
    split; [ apply str_or_nonempty; discriminate | ].
    split; [ discriminate | split; [ | discriminate ] ].
    intros c' raw' H. inversion H. reflexivity.
Qed.
End LoginClaims.

(** * Runs on the sample tabs *)

(** ** [login(username, password)] *)

(** C1 as stated fails on the scenario of the specification: the login
    answers 200 with the token [t1], the profile request does not complete.
    [login] throws; the session has no token and is not authenticated. *)
Lemma login_profile_network_failure :
  let run := AuthStoreFetch.login scripted (VStr "alice") (VStr "pw")
               (fresh_tab [HttpResponse 200 (JsonText (VObj {[ "access_token" := VStr "t1" ]}));
                           NetworkError "Failed to fetch"]) in
  snd run = Thrown (new_Error (VStr "Failed to fetch")) ∧
  token (session (fst run)) = VNull ∧
  isAuthenticated (session (fst run)) = VBool false ∧
  session (fst run)
    ≠ {| user := VObj {[ "username" := VStr "alice" ]}; token := VStr "t1";
         isAuthenticated := VBool true; isLoading := VBool false; error := VNull |}.
Proof.
  vm_compute. repeat split. intros H. discriminate H.
Qed.

(** The login answers 200 with the token [t1]. When the profile endpoint
    answers with alice's profile, she is logged in with it; when it answers
    404, she is logged in under her username alone. *)
Lemma login_success_witness :
  session (fst (AuthStoreFetch.login scripted (VStr "alice") (VStr "pw")
                  (fresh_tab [HttpResponse 200 (JsonText (VObj {[ "access_token" := VStr "t1" ]}));
                              HttpResponse 200 (JsonText alice)])))
    = {| user := alice; token := VStr "t1";
         isAuthenticated := VBool true; isLoading := VBool false; error := VNull |} ∧
  session (fst (AuthStoreFetch.login scripted (VStr "alice") (VStr "pw")
                  (fresh_tab [HttpResponse 200 (JsonText (VObj {[ "access_token" := VStr "t1" ]}));
                              HttpResponse 404 (RawText "Not Found")])))
    = {| user := VObj {[ "username" := VStr "alice" ]}; token := VStr "t1";
         isAuthenticated := VBool true; isLoading := VBool false; error := VNull |}.
Proof.
  split.
  - pose proof (login_success scripted
                  (fresh_tab [HttpResponse 200 (JsonText (VObj {[ "access_token" := VStr "t1" ]}));
                              HttpResponse 200 (JsonText alice)])
                  (VStr "alice") (VStr "pw")
                  [HttpResponse 200 (JsonText alice)] 200
                  (VObj {[ "access_token" := VStr "t1" ]})
                  eq_refl eq_refl) as H.
    exact (proj2 (proj2 (proj2 H))).
  - pose proof (login_success scripted
                  (fresh_tab [HttpResponse 200 (JsonText (VObj {[ "access_token" := VStr "t1" ]}));
                              HttpResponse 404 (RawText "Not Found")])
                  (VStr "alice") (VStr "pw")
                  [HttpResponse 404 (RawText "Not Found")] 200
                  (VObj {[ "access_token" := VStr "t1" ]})
                  eq_refl eq_refl) as H.
    exact (proj2 (proj2 (proj2 H))).
Defined.

(** C2 as stated fails when the login request does not complete: the
    server provided no detail, and the error is the message of the network
    failure, not the default. *)
Lemma login_network_error_message :
  let run := AuthStoreFetch.login scripted (VStr "alice") (VStr "pw")
               (fresh_tab [NetworkError "Failed to fetch"]) in
  server_detail (NetworkError "Failed to fetch") = VUndefined ∧
  snd run = Thrown (new_Error (VStr "Failed to fetch")) ∧
  error (session (fst run)) = VStr "Failed to fetch" ∧
  error (session (fst run)) ≠ VStr "Login failed".
Proof.
  vm_compute. repeat split. intros H. discriminate H.
Qed.

(** Wrong credentials: the server's detail is thrown and recorded, and the
    fresh tab stays unauthenticated with no token stored. *)
Lemma login_failure_witness :
  let run := AuthStoreFetch.login scripted (VStr "alice") (VStr "pw")
               (fresh_tab [HttpResponse 401 (JsonText (VObj {[ "detail" := VStr "Invalid credentials" ]}))]) in
  ∃ msg,
    snd run = Thrown (new_Error (VStr msg)) ∧
    msg = "Invalid credentials" ∧
    unauthenticated (session (fst run)) ∧
    truthy (stored_token (storage (fst run))) = false.
Proof.
  destruct (login_failure scripted
              (fresh_tab [HttpResponse 401 (JsonText (VObj {[ "detail" := VStr "Invalid credentials" ]}))])
              (VStr "alice") (VStr "pw") eq_refl)
    as (msg & Hthrown & _ & _ & Hkeep & _ & _ & _ & Hdetail).
  exists msg. split; [ exact Hthrown | ].
  split.
  - exact (Hdetail 401%Z (VObj {[ "detail" := VStr "Invalid credentials" ]}) eq_refl).
  - apply Hkeep. split; reflexivity.
Defined.

(** ** [initializeAuth] and [logout] *)

(** The server accepts [Bearer good] alone; the tab was reopened on the
    token [stale]. *)
Lemma initializeAuth_rejected_witness :
  session (fst (AuthStore.initializeAuth checking_server (tab_with_token "stale")))
    = initial_session.
Proof.
  destruct (initializeAuth_rejected_is_logout checking_server (tab_with_token "stale"))
    as (_ & H & _).
  - reflexivity.
  - vm_compute. reflexivity.
  - exact H.
Defined.

(** ** The wrapper *)

(** C4 as stated fails on the store: after a 401 the storage is cleared,
    but the session in memory is alice's, still authenticated, with its
    token. *)
Lemma forced_logout_keeps_store :
  let w' := fst (Api.get scripted "/chat/conversations"
                   (alice_tab [HttpResponse 401 (JsonText (VObj {[ "detail" := VStr "Token expired" ]}))])) in
  storage w' = None ∧
  session w' = alice_session ∧
  ¬ unauthenticated (session w').
Proof.
  vm_compute. repeat split. intros [H _]. discriminate H.
Qed.

Lemma unauthorized_forces_logout_once_witness :
  let w := alice_tab [HttpResponse 401 (JsonText (VObj {[ "detail" := VStr "Token expired" ]}))] in
  let w' := fst (Api.api_request scripted "GET" "/chat/conversations" ∅ NoBody w) in
  storage w' = None ∧ location w' = "/login" ∧
  AuthStore.rehydrate (storage w') = initial_session.
Proof.
  destruct (unauthorized_forces_logout_once scripted
              (alice_tab [HttpResponse 401 (JsonText (VObj {[ "detail" := VStr "Token expired" ]}))])
              "GET" "/chat/conversations" ∅ NoBody
              (JsonText (VObj {[ "detail" := VStr "Token expired" ]})) eq_refl)
    as (Hs & Hl & _ & _ & _ & Hr).
  exact (conj Hs (conj Hl Hr)).
Defined.

(** C5 as stated fails after a forced logout: alice logs in through
    [login] of authStore.js, a later request is answered 401 and the
    wrapper clears the storage; the next request finds no persisted token
    and still goes out with the default header that [login] had set. *)
Lemma authorization_without_persisted_token :
  let w1 := fst (AuthStore.login scripted
                   (VObj {[ "username" := VStr "alice"; "password" := VStr "pw" ]})
                   (fresh_tab [HttpResponse 200 (JsonText (VObj {[ "access_token" := VStr "t1";
                                                                    "user" := alice ]}));
                               HttpResponse 401 (JsonText (VObj {[ "detail" := VStr "Token expired" ]}))])) in
  let w2 := fst (Api.get scripted "/chat/conversations" w1) in
  storage w2 = None ∧
  stored_token (storage w2) = VUndefined ∧
  headers (Api.outgoing w2 "POST" "/chat/send" ∅
             (FormBody (Api.sendMessage_formData (VStr "hello") VNull)))
    !! "Authorization" = Some "Bearer t1".
Proof.
  vm_compute. repeat split.
Qed.

(** The login response carries no [access_token]: no token is in the
    session or in the storage, and requests go out with
    [Bearer undefined]. *)
Lemma authorization_bearer_undefined :
  let w1 := fst (AuthStore.login scripted
                   (VObj {[ "username" := VStr "alice"; "password" := VStr "pw" ]})
                   (fresh_tab [HttpResponse 200 (JsonText (VObj {[ "user" := alice ]}))])) in
  token (session w1) = VUndefined ∧
  stored_token (storage w1) = VUndefined ∧
  headers (Api.outgoing w1 "GET" "/chat/conversations" ∅ NoBody)
    !! "Authorization" = Some "Bearer undefined".
Proof.
  vm_compute. repeat split.
Qed.

(** ** [persist] *)



(** ** [updateProfile] and [changePassword] *)

(** The scenario of the specification: the response carries the email
    alone, and the username stays. A rejected update sets the error and
    returns. *)
Lemma updateProfile_shallow_merge_witness :
  let w' := fst (AuthStore.updateProfile scripted
                   (VObj {[ "email" := VStr "new@x.com" ]})
                   (alice_tab [HttpResponse 200 (JsonText (VObj {[ "email" := VStr "new@x.com" ]}))])) in
  let w'' := fst (AuthStore.updateProfile scripted
                    (VObj {[ "email" := VStr "taken@x.com" ]})
                    (alice_tab [HttpResponse 400 (JsonText (VObj {[ "detail" := VStr "Email already registered" ]}))])) in
  spread (user (session w')) !! "username" = Some (VStr "alice") ∧
  spread (user (session w')) !! "email" = Some (VStr "new@x.com") ∧
  session w'' = with_error (VStr "Email already registered") alice_session.
Proof.
  split; [ | split ].
  - destruct (updateProfile_shallow_merge scripted
                (alice_tab [HttpResponse 200 (JsonText (VObj {[ "email" := VStr "new@x.com" ]}))])
                (VObj {[ "email" := VStr "new@x.com" ]})) as [Hok _].
    destruct (Hok 200%Z (JsonText (VObj {[ "email" := VStr "new@x.com" ]})) eq_refl eq_refl)
      as (_ & _ & Hkeep & _).
    rewrite (Hkeep "username"); reflexivity.
  - destruct (updateProfile_shallow_merge scripted
                (alice_tab [HttpResponse 200 (JsonText (VObj {[ "email" := VStr "new@x.com" ]}))])
                (VObj {[ "email" := VStr "new@x.com" ]})) as [Hok _].
    destruct (Hok 200%Z (JsonText (VObj {[ "email" := VStr "new@x.com" ]})) eq_refl eq_refl)
      as (_ & _ & _ & Htake).
    apply Htake. reflexivity.
  - destruct (updateProfile_shallow_merge scripted
                (alice_tab [HttpResponse 400 (JsonText (VObj {[ "detail" := VStr "Email already registered" ]}))])
                (VObj {[ "email" := VStr "taken@x.com" ]})) as [_ Hrej].
    exact (proj2 (Hrej eq_refl)).
Defined.

(** C9 as stated fails on the error: an accepted change of password
    leaves the error of an earlier action in the session. *)
Lemma changePassword_keeps_error :
  let run := AuthStore.changePassword scripted
               (VObj {[ "currentPassword" := VStr "a"; "newPassword" := VStr "b" ]})
               (alice_tab_with_error [HttpResponse 200 (JsonText (VObj {[ "message" := VStr "ok" ]}))]) in
  snd run = Returned (VObj {[ "success" := VBool true ]}) ∧
  error (session (fst run)) = VStr "Profile update failed" ∧
  error (session (fst run)) ≠ VNull.
Proof.
  vm_compute. repeat split. intros H. discriminate H.
Qed.

(** The scenario of the specification: the server answers 400 with a
    detail; the detail is the error, and the action returns. An accepted
    change leaves alice's session as it was. *)
Lemma changePassword_session_witness :
  let run := AuthStore.changePassword scripted
               (VObj {[ "currentPassword" := VStr "a"; "newPassword" := VStr "b" ]})
               (alice_tab [HttpResponse 400 (JsonText (VObj {[ "detail" := VStr "wrong current password" ]}))]) in
  let run' := AuthStore.changePassword scripted
                (VObj {[ "currentPassword" := VStr "a"; "newPassword" := VStr "b" ]})
                (alice_tab [HttpResponse 200 (JsonText (VObj {[ "message" := VStr "ok" ]}))]) in
  snd run = Returned (VObj {[ "success" := VBool false;
                              "error" := VStr "wrong current password" ]}) ∧
  error (session (fst run)) = VStr "wrong current password" ∧
  session (fst run') = alice_session.
Proof.
  split; [ | split ].
  - destruct (changePassword_session scripted
                (alice_tab [HttpResponse 400 (JsonText (VObj {[ "detail" := VStr "wrong current password" ]}))])
                (VObj {[ "currentPassword" := VStr "a"; "newPassword" := VStr "b" ]}))
      as [_ Hrej].
    exact (proj1 (Hrej eq_refl)).
  - destruct (changePassword_session scripted
                (alice_tab [HttpResponse 400 (JsonText (VObj {[ "detail" := VStr "wrong current password" ]}))])
                (VObj {[ "currentPassword" := VStr "a"; "newPassword" := VStr "b" ]}))
      as [_ Hrej].
    rewrite (proj2 (Hrej eq_refl)). reflexivity.
  - destruct (changePassword_session scripted
                (alice_tab [HttpResponse 200 (JsonText (VObj {[ "message" := VStr "ok" ]}))])
                (VObj {[ "currentPassword" := VStr "a"; "newPassword" := VStr "b" ]}))
      as [Hok _].
    exact (proj2 (Hok 200%Z (JsonText (VObj {[ "message" := VStr "ok" ]})) eq_refl eq_refl)).
Defined.

(** * Further properties *)

(** ** The wrapper and the resource clients *)

Section WrapperFurther.
Context {Server : Type} (host : Host Server).

(** What one call through [api] does to the tab. *)
Lemma api_request_effect (w : World Server) (meth path : string)
    (own : gmap string string) (sent : payload) :
  let config := Api.outgoing w meth path own sent in
  let w' := fst (Api.api_request host meth path own sent w) in
  session w' = session w ∧
  default_auth w' = default_auth w ∧
  server w' = fst (transport host (server w) config) ∧
  if unauthorized (snd (transport host (server w) config))
  then storage w' = None ∧ location w' = "/login" ∧
       log w' = (log w ++ [Sent config; StorageRemoved "auth-storage";
                           Navigated "/login"])%list
  else storage w' = storage w ∧ location w' = location w ∧
       log w' = (log w ++ [Sent config])%list.
Proof.
  intros config w'. subst w'. rewrite api_request_run. fold config.
  destruct (snd (transport host (server w) config)) as [msg | c content]; simpl.
  - repeat split.
  - destruct (c =? 401)%Z eqn:E.
    + apply Z.eqb_eq in E. subst c. simpl.
      repeat split. rewrite <- !app_assoc. reflexivity.
    + destruct (status_ok c); simpl; repeat split.
Qed.

(** X1. The request interceptor touches nothing but the Authorization header:
    method, path, body and every other header go out as the call made
    them. *)
Theorem request_interceptor_frame (item : option text) (config : request) :
  let out := Api.request_interceptor item config in
  method out = method config ∧
  url out = url config ∧
  body out = body config ∧
  (∀ k, k ≠ "Authorization" → headers out !! k = headers config !! k) ∧
  (headers out !! "Authorization" = headers config !! "Authorization"
   ∨ ∃ tok, truthy tok = true ∧
            headers out !! "Authorization" = Some ("Bearer " ++ to_string tok)).
Proof.
  intros out. subst out. rewrite request_interceptor_stored_token.
  destruct (truthy (stored_token item)) eqn:E; simpl.
  - repeat split.
    + intros k Hk. apply lookup_insert_ne. congruence.
    + right. exists (stored_token item). split; [ exact E | ].
      apply lookup_insert_eq.
  - repeat split. left. reflexivity.
Qed.

(** X2. An answer that is not a 401, and a request that does not complete,
    leave the storage and the location alone: the wrapper sends the request
    once and hands the outcome to the caller, a 2xx answer as the response,
    anything else as an error that carries the answer. The session and the
    default header are never touched. *)
Theorem api_request_passes_other_outcomes (w : World Server) (meth path : string)
    (own : gmap string string) (sent : payload) :
  let config := Api.outgoing w meth path own sent in
  let out := snd (transport host (server w) config) in
  let w' := fst (Api.api_request host meth path own sent w) in
  let result := snd (Api.api_request host meth path own sent w) in
  unauthorized out = false →
  session w' = session w ∧ default_auth w' = default_auth w ∧
  storage w' = storage w ∧ location w' = location w ∧
  log w' = (log w ++ [Sent config])%list ∧
  match out with
  | NetworkError msg => result = Thrown {| message := msg; response := None |}
  | HttpResponse c content =>
      if status_ok c
      then result = Returned {| status := c; data := Api.axios_data content |}
      else ∃ e, result = Thrown e ∧
                response e = Some {| status := c; data := Api.axios_data content |}
  end.
Proof.
  intros config out w' result Hu.
  pose proof (api_request_effect w meth path own sent) as (Hs & Hd & _ & He).
  fold config in He. fold out in He. rewrite Hu in He.
  destruct He as (Hst & Hl & Hlog).
  subst w' result. repeat split; try assumption.
  rewrite api_request_run. fold config. fold out.
  destruct out as [msg | c content]; simpl in *; [ reflexivity | ].
  rewrite Hu. destruct (status_ok c); [ reflexivity | ].
  eexists. split; reflexivity.
Qed.

(** X3. Every resource client sends one request, with the method and to the
    path it is written with, and no second one. An answer 401 forces the
    logout; any other outcome leaves the storage and the location alone.
    The client never touches the session or the default header. *)
Theorem resource_call_one_request (c : resource_call) (w : World Server) :
  let w' := fst (call host c w) in
  (∀ id rest : string,
     endpoint (GetConversation (VStr id)) = ("GET", "/chat/conversations/" ++ id) ∧
     endpoint (DeleteConversation (VStr id)) = ("DELETE", "/chat/conversations/" ++ id) ∧
     endpoint (DeleteDocument (VStr id)) = ("DELETE", "/files/" ++ id) ∧
     endpoint (ExecutePlugin (VStr id) (VStr rest))
       = ("POST", "/plugins/" ++ id ++ "/execute")) ∧
  session w' = session w ∧ default_auth w' = default_auth w ∧
  ∃ config,
    (method config, url config) = endpoint c ∧
    if unauthorized (snd (transport host (server w) config))
    then storage w' = None ∧ location w' = "/login" ∧
         log w' = (log w ++ [Sent config; StorageRemoved "auth-storage";
                             Navigated "/login"])%list
    else storage w' = storage w ∧ location w' = location w ∧
         log w' = (log w ++ [Sent config])%list.
Proof.
  assert (Hgen : ∀ meth path sent,
            let w' := fst (Api.api_request host meth path ∅ sent w) in
            session w' = session w ∧ default_auth w' = default_auth w ∧
            ∃ config,
              (method config, url config) = (meth, path) ∧
              if unauthorized (snd (transport host (server w) config))
              then storage w' = None ∧ location w' = "/login" ∧
                   log w' = (log w ++ [Sent config; StorageRemoved "auth-storage";
                                       Navigated "/login"])%list
              else storage w' = storage w ∧ location w' = location w ∧
                   log w' = (log w ++ [Sent config])%list).
  { intros meth path sent.
    pose proof (api_request_effect w meth path ∅ sent) as (Hs & Hd & _ & He).
    split; [ exact Hs | ]. split; [ exact Hd | ].
    exists (Api.outgoing w meth path ∅ sent). split; [ | exact He ].
    unfold Api.outgoing. rewrite request_interceptor_stored_token.
    destruct (truthy _); reflexivity. }
  split; [ intros id rest; repeat split | ].
  destruct c; apply Hgen.
Qed.
End WrapperFurther.

(** ** The store, action by action *)

Section StoreFurther.
Context {Server : Type} (host : Host Server).

(** A call through [api] either returns, with the storage as it was, or
    throws; the session is as it was in both cases. *)
Lemma api_request_cases (w : World Server) (meth path : string)
    (own : gmap string string) (sent : payload) :
  ∃ w1 c,
    Api.api_request host meth path own sent w = (w1, c) ∧
    session w1 = session w ∧ default_auth w1 = default_auth w ∧
    match c with
    | Returned _ => storage w1 = storage w ∧ location w1 = location w
    | Thrown _ => True
    end.
Proof.
  rewrite api_request_run.
  destruct (snd (transport host (server w) _)) as [msg | c content]; simpl.
  - do 2 eexists. split; [ reflexivity | ]. repeat split.
  - destruct (status_ok c).
    + do 2 eexists. split; [ reflexivity | ]. repeat split.
    + destruct (c =? 401)%Z; do 2 eexists; (split; [ reflexivity | ]); repeat split.
Qed.

(** X4. [userAPI.changePassword] reads the two passwords off its argument
    before it sends anything: on [null] or [undefined] it throws and no
    request goes out. Otherwise it puts to [/users/password] a form of
    exactly two fields, [current_password] and [new_password], each the
    string of the property read, which is the text [undefined] for a
    property that is missing. *)
Theorem userAPI_changePassword_form (w : World Server) (passwordData : value) :
  (nullish passwordData = true →
     ∃ e, userAPI.changePassword host passwordData w = (w, Thrown e)) ∧
  (nullish passwordData = false →
     ∃ config rest,
       log (fst (userAPI.changePassword host passwordData w))
         = (log w ++ Sent config :: rest)%list ∧
       method config = "PUT" ∧ url config = "/users/password" ∧
       body config
         = FormBody [("current_password",
                      to_string (opt_prop passwordData "currentPassword"));
                     ("new_password",
                      to_string (opt_prop passwordData "newPassword"))]).
Proof.
  split; intros Hn.
  - unfold userAPI.changePassword, read_prop, mbind, M_bind, throw.
    destruct passwordData; simpl in *; try discriminate; eexists; reflexivity.
  - assert (H1 : ∀ k, get_prop passwordData k = Some (opt_prop passwordData k)).
    { intros k. unfold opt_prop. destruct passwordData; simpl in *; congruence. }
    unfold userAPI.changePassword, read_prop, mbind, M_bind, mret, M_ret.
    rewrite !H1. unfold Api.put.
    pose proof (api_request_effect host w "PUT" "/users/password" ∅
                  (FormBody [("current_password",
                              to_string (opt_prop passwordData "currentPassword"));
                             ("new_password",
                              to_string (opt_prop passwordData "newPassword"))]))
      as (_ & _ & _ & He).
    set (config := Api.outgoing w "PUT" "/users/password" ∅ _) in *.
    assert (Hc : method config = "PUT" ∧ url config = "/users/password" ∧
                 body config
                   = FormBody [("current_password",
                                to_string (opt_prop passwordData "currentPassword"));
                               ("new_password",
                                to_string (opt_prop passwordData "newPassword"))]).
    { subst config. unfold Api.outgoing. rewrite request_interceptor_stored_token.
      destruct (truthy _); repeat split. }
    destruct (unauthorized _); destruct He as (_ & _ & Hlog).
    + exists config, [StorageRemoved "auth-storage"; Navigated "/login"].
      split; [ exact Hlog | exact Hc ].
    + exists config, []. split; [ exact Hlog | exact Hc ].
Qed.

(** X6. [register] of authStore.js never logs the user in and never throws:
    whatever the server does, it returns, leaves user, token,
    [isAuthenticated] and the default header as they were, and ends with
    [isLoading] false. When the answer to its request is 2xx the error is
    cleared and the data of the response handed back; otherwise the error
    is the server's detail or else the default. *)
Theorem register_never_logs_in (w : World Server) (userData : value) :
  let out := snd (transport host (server w) (register_call w userData)) in
  let w' := fst (AuthStore.register host userData w) in
  let result := snd (AuthStore.register host userData w) in
  user (session w') = user (session w) ∧
  token (session w') = token (session w) ∧
  isAuthenticated (session w') = isAuthenticated (session w) ∧
  isLoading (session w') = VBool false ∧
  default_auth w' = default_auth w ∧
  match out with
  | HttpResponse c content =>
      if status_ok c
      then error (session w') = VNull ∧
           result = Returned (VObj {[ "success" := VBool true;
                                      "data" := Api.axios_data content ]})
      else let msg := or_else (server_detail out) (VStr "Registration failed") in
           error (session w') = msg ∧
           result = Returned (VObj {[ "success" := VBool false; "error" := msg ]})
  | NetworkError _ =>
      error (session w') = VStr "Registration failed" ∧
      result = Returned (VObj {[ "success" := VBool false;
                                 "error" := VStr "Registration failed" ]})
  end.
Proof.
  intros out w' result. subst w' result.
  unfold AuthStore.register, try_catch, mbind, M_bind, Api.post.
  rewrite set_run. set (w0 := with_storage _ _).
  assert (Ho : snd (transport host (server w0)
                      (Api.outgoing w0 "POST" "/auth/register" ∅ (JsonData userData)))
               = out) by reflexivity.
  rewrite api_request_run, Ho.
  destruct out as [msg | c content]; simpl.
  - repeat split.
  - destruct (status_ok c); simpl.
    + repeat split.
    + destruct (c =? 401)%Z; simpl; repeat split.
Qed.
End StoreFurther.

(** ** The store, actions in a row *)

Section StoreComposition.
Context {Server : Type} (host : Host Server).

(** X7. [clearError] undoes what a rejected [changePassword] or
    [updateProfile] did to a session that had no error: the session is
    again as it was before the action. *)
Theorem clearError_undoes_failure (w : World Server) (d : value) :
  error (session w) = VNull →
  (rejects (snd (transport host (server w)
                   (Api.outgoing w "PUT" "/users/password" ∅ (JsonData d)))) = true →
   session (fst (AuthStore.clearError (fst (AuthStore.changePassword host d w))))
     = session w) ∧
  (rejects (snd (transport host (server w)
                   (Api.outgoing w "PUT" "/users/profile" ∅ (JsonData d)))) = true →
   session (fst (AuthStore.clearError (fst (AuthStore.updateProfile host d w))))
     = session w).
Proof.
  intros He. split; intros Hr.
  - destruct (api_request_rejected host w _ _ _ _ Hr) as (w1 & e & Hrun & Hs & _).
    unfold AuthStore.changePassword, try_catch, mbind, M_bind, Api.put.
    rewrite Hrun. simpl. rewrite Hs.
    destruct (session w); simpl in *; subst; reflexivity.
  - destruct (api_request_rejected host w _ _ _ _ Hr) as (w1 & e & Hrun & Hs & _).
    unfold AuthStore.updateProfile, try_catch, mbind, M_bind, Api.put.
    rewrite Hrun. simpl. rewrite Hs.
    destruct (session w); simpl in *; subst; reflexivity.
Qed.

(** X8. Without a token [initializeAuth] does nothing at all: no request goes
    out and the tab is as it was. That is the case after every [logout]. *)
Theorem initializeAuth_without_token (w : World Server) :
  (truthy (token (session w)) = false →
   AuthStore.initializeAuth host w = (w, Returned tt)) ∧
  AuthStore.initializeAuth host (fst (AuthStore.logout w))
    = (fst (AuthStore.logout w), Returned tt).
Proof.
  split.
  - intros Ht. unfold AuthStore.initializeAuth, mbind, M_bind, get. simpl.
    rewrite Ht. reflexivity.
  - reflexivity.
Qed.

(** X9. When the profile endpoint accepts the request that
    [initializeAuth] sends, [initializeAuth] makes the token the default
    header, takes the user from the answer and marks the
    session authenticated, keeping token, [isLoading] and [error]; the
    storage holds that session's token. Its one request carries the
    persisted token when there is one, else the token of the session. *)
Theorem initializeAuth_accepted_header (w : World Server) (c : Z) (content : text) :
  truthy (token (session w)) = true →
  snd (transport host (server w) (profile_call w)) = HttpResponse c content →
  status_ok c = true →
  let w' := fst (AuthStore.initializeAuth host w) in
  session w' = {| user := Api.axios_data content; token := token (session w);
                  isAuthenticated := VBool true; isLoading := isLoading (session w);
                  error := error (session w) |} ∧
  default_auth w' = Some ("Bearer " ++ to_string (token (session w))) ∧
  coherent w' ∧
  log w' = (log w ++ [Sent (profile_call w)])%list ∧
  headers (profile_call w) !! "Authorization"
    = Some ("Bearer " ++
            to_string (if truthy (stored_token (storage w))
                       then stored_token (storage w)
                       else token (session w))).
Proof.
  intros Htok Hacc Hok.
  unfold AuthStore.initializeAuth, mbind, M_bind, get. simpl.
  rewrite Htok. unfold try_catch, mbind, M_bind, AuthStore.set_default_auth, modify.
  unfold Api.get.
  set (w0 := with_default_auth _ w).
  assert (Hout : snd (transport host (server w0)
                        (Api.outgoing w0 "GET" "/users/profile" ∅ NoBody))
                 = HttpResponse c content) by exact Hacc.
  rewrite api_request_run, Hout. simpl. rewrite Hok. simpl.
  repeat split.
  unfold profile_call, Api.outgoing. rewrite request_interceptor_stored_token. simpl.
  destruct (truthy (stored_token (storage w))); simpl.
  - apply lookup_insert_eq.
  - reflexivity.
Qed.

(** One action of the store: it returns, and the storage keeps holding
    what [persist] writes for the session. *)
Lemma perform_step (a : store_action) (w : World Server) :
  snd (perform host a w) = Returned tt ∧
  (coherent w → coherent (fst (perform host a w))).
Proof.
  destruct a; simpl.
  - unfold AuthStore.login, try_catch, mbind, M_bind, Api.post, read_prop,
      AuthStore.set_default_auth, modify, throw, mret, M_ret.
    rewrite set_run. set (w0 := with_storage _ _).
    destruct (api_request_cases host w0 "POST" "/auth/login" ∅ (JsonData credentials))
      as (w1 & [r | e] & Hrun & _); rewrite Hrun; simpl.
    + destruct (get_prop (data r) "access_token"); simpl;
        [ destruct (get_prop (data r) "user"); simpl | ]; split; reflexivity.
    + split; reflexivity.
  - unfold AuthStore.register, try_catch, mbind, M_bind, Api.post.
    rewrite set_run. set (w0 := with_storage _ _).
    destruct (api_request_cases host w0 "POST" "/auth/register" ∅ (JsonData userData))
      as (w1 & [r | e] & Hrun & _); rewrite Hrun; simpl; split; reflexivity.
  - split; reflexivity.
  - unfold AuthStore.updateProfile, try_catch, mbind, M_bind, Api.put, get.
    destruct (api_request_cases host w "PUT" "/users/profile" ∅ (JsonData profileData))
      as (w1 & [r | e] & Hrun & _); rewrite Hrun; simpl; split; reflexivity.
  - unfold AuthStore.changePassword, try_catch, mbind, M_bind, Api.put.
    destruct (api_request_cases host w "PUT" "/users/password" ∅ (JsonData passwordData))
      as (w1 & [r | e] & Hrun & Hs & _ & Hc); rewrite Hrun; simpl.
    + split; [ reflexivity | ]. intros Hw. unfold coherent in *.
      destruct Hc as [Hst _]. rewrite Hst, Hs. exact Hw.
    + split; reflexivity.
  - split; reflexivity.
  - unfold AuthStore.initializeAuth, mbind, M_bind, get. simpl.
    destruct (truthy (token (session w))).
    + unfold try_catch, mbind, M_bind, AuthStore.set_default_auth, modify, Api.get.
      set (w0 := with_default_auth _ w).
      destruct (api_request_cases host w0 "GET" "/users/profile" ∅ NoBody)
        as (w1 & [r | e] & Hrun & _); rewrite Hrun; simpl; split; reflexivity.
    + split; [ reflexivity | ]. intros Hw. exact Hw.
Qed.

(** X10. No action of authStore.js throws: whatever the actions, in whatever
    order, and whatever the server answers, each returns and the next one
    runs. *)
Theorem store_actions_never_throw (l : list store_action) (w : World Server) :
  snd (perform_all host l w) = Returned tt.
Proof.
  revert w. induction l as [ | a l IH]; intros w; simpl; [ reflexivity | ].
  unfold mbind, M_bind.
  destruct (perform host a w) as [w1 c] eqn:E.
  pose proof (perform_step a w) as [Hret _]. rewrite E in Hret. simpl in Hret.
  subst c. apply IH.
Qed.

(** X11. Through any run of actions of authStore.js the storage keeps holding
    what [persist] writes for the session: its token and nothing else. *)
Theorem store_actions_keep_storage (l : list store_action) (w : World Server) :
  coherent w → coherent (fst (perform_all host l w)).
Proof.
  revert w. induction l as [ | a l IH]; intros w Hw; simpl; [ exact Hw | ].
  unfold mbind, M_bind.
  destruct (perform host a w) as [w1 c] eqn:E.
  pose proof (perform_step a w) as [Hret Hco]. rewrite E in Hret, Hco.
  simpl in Hret, Hco. subst c. apply IH, Hco, Hw.
Qed.

(** X12. The wrapper follows the store through the storage: after any [set],
    a request that brings no header of its own carries [Bearer] and the
    token of the session when that token is truthy, and else the default
    header alone. *)
Theorem set_then_request_uses_token (w : World Server) (partial : patch)
    (meth path : string) (sent : payload) :
  let w' := fst (AuthStore.set partial w) in
  let tok := token (session w') in
  headers (Api.outgoing w' meth path ∅ sent) !! "Authorization"
    = (if truthy tok then Some ("Bearer " ++ to_string (jsonify tok))
       else default_auth w) ∧
  ∀ t, tok = VStr t → t ≠ "" →
       headers (Api.outgoing w' meth path ∅ sent) !! "Authorization"
         = Some ("Bearer " ++ t).
Proof.
  intros w' tok.
  assert (H : headers (Api.outgoing w' meth path ∅ sent) !! "Authorization"
              = if truthy tok then Some ("Bearer " ++ to_string (jsonify tok))
                else default_auth w).
  { unfold Api.outgoing. rewrite request_interceptor_stored_token.
    subst w'. rewrite set_run. simpl storage.
    rewrite stored_token_persisted, truthy_jsonify. subst tok. simpl.
    destruct (truthy _); simpl.
    - apply lookup_insert_eq.
    - unfold Api.call_headers. simpl.
      rewrite lookup_union, lookup_empty, (left_id None _), lookup_union.
      destruct (default_auth w); simpl.
      + rewrite lookup_singleton_eq. reflexivity.
      + reflexivity. }
  split; [ exact H | ].
  intros t Ht Hne. rewrite H, Ht. simpl.
  destruct (String.eqb t "") eqn:E; [ apply String.eqb_eq in E; contradiction | ].
  reflexivity.
Qed.

(** X13. A 401 in the middle of [updateProfile] or [changePassword] does not
    leave the storage cleared: the wrapper removes the entry and sets the
    location, then the action records its error with [set], which writes
    the token of the session back to the storage. *)
Theorem store_unauthorized_keeps_token (w : World Server) (d : value) (content : text) :
  (snd (transport host (server w)
          (Api.outgoing w "PUT" "/users/profile" ∅ (JsonData d)))
     = HttpResponse 401 content →
   let w' := fst (AuthStore.updateProfile host d w) in
   location w' = "/login" ∧ StorageRemoved "auth-storage" ∈ log w' ∧
   token (session w') = token (session w) ∧
   stored_token (storage w') = jsonify (token (session w))) ∧
  (snd (transport host (server w)
          (Api.outgoing w "PUT" "/users/password" ∅ (JsonData d)))
     = HttpResponse 401 content →
   let w' := fst (AuthStore.changePassword host d w) in
   location w' = "/login" ∧ StorageRemoved "auth-storage" ∈ log w' ∧
   token (session w') = token (session w) ∧
   stored_token (storage w') = jsonify (token (session w))).
Proof.
  split; intros Hout w'.
  - assert (H : location w' = "/login" ∧ StorageRemoved "auth-storage" ∈ log w' ∧
                token (session w') = token (session w) ∧ coherent w').
    { subst w'.
      unfold AuthStore.updateProfile, try_catch, mbind, M_bind, Api.put.
      rewrite api_request_run, Hout. simpl. repeat split. set_solver. }
    destruct H as (Hl & Hlog & Ht & Hco).
    repeat split; try assumption.
    rewrite Hco, stored_token_persisted, Ht. reflexivity.
  - assert (H : location w' = "/login" ∧ StorageRemoved "auth-storage" ∈ log w' ∧
                token (session w') = token (session w) ∧ coherent w').
    { subst w'.
      unfold AuthStore.changePassword, try_catch, mbind, M_bind, Api.put.
      rewrite api_request_run, Hout. simpl. repeat split. set_solver. }
    destruct H as (Hl & Hlog & Ht & Hco).
    repeat split; try assumption.
    rewrite Hco, stored_token_persisted, Ht. reflexivity.
Qed.

(** X5. [login] of authStore.js, outcome by outcome. It never throws and
    always ends with [isLoading] false. A 2xx answer with data makes the
    [access_token] of the data the token and the default header, and the
    [user] of the data the user. A 2xx answer whose data is [null] counts
    as a failure with the default message. Any failure leaves user, token,
    [isAuthenticated] and the default header as they were. *)
Theorem axios_login_outcomes (w : World Server) (credentials : value) :
  let out := snd (transport host (server w) (login_call w credentials)) in
  let w' := fst (AuthStore.login host credentials w) in
  let result := snd (AuthStore.login host credentials w) in
  let unchanged :=
    user (session w') = user (session w) ∧
    token (session w') = token (session w) ∧
    isAuthenticated (session w') = isAuthenticated (session w) ∧
    default_auth w' = default_auth w in
  isLoading (session w') = VBool false ∧
  (∃ v, result = Returned v) ∧
  match out with
  | NetworkError _ =>
      unchanged ∧ error (session w') = VStr "Login failed" ∧
      result = Returned (VObj {[ "success" := VBool false;
                                 "error" := VStr "Login failed" ]})
  | HttpResponse c content =>
      let d := Api.axios_data content in
      if status_ok c then
        if nullish d then
          unchanged ∧ error (session w') = VStr "Login failed" ∧
          result = Returned (VObj {[ "success" := VBool false;
                                     "error" := VStr "Login failed" ]})
        else
          session w' = {| user := opt_prop d "user";
                          token := opt_prop d "access_token";
                          isAuthenticated := VBool true;
                          isLoading := VBool false; error := VNull |} ∧
          default_auth w' = Some ("Bearer " ++ to_string (opt_prop d "access_token")) ∧
          result = Returned (VObj {[ "success" := VBool true ]})
      else
        let msg := or_else (server_detail out) (VStr "Login failed") in
        unchanged ∧ error (session w') = msg ∧
        result = Returned (VObj {[ "success" := VBool false; "error" := msg ]})
  end.
Proof.
  intros out w' result unchanged. subst w' result unchanged.
  unfold AuthStore.login, try_catch, mbind, M_bind, Api.post, read_prop,
    AuthStore.set_default_auth, modify, throw, mret, M_ret.
  rewrite set_run. set (w0 := with_storage _ _).
  assert (Ho : snd (transport host (server w0)
                      (Api.outgoing w0 "POST" "/auth/login" ∅ (JsonData credentials)))
               = out) by reflexivity.
  rewrite api_request_run, Ho.
  destruct out as [msg | c content]; simpl.
  - repeat split. eexists. reflexivity.
  - destruct (status_ok c) eqn:Hok; simpl.
    + destruct (Api.axios_data content) eqn:Hd; simpl; repeat split;
        eexists; reflexivity.
    + destruct (c =? 401)%Z; simpl; repeat split; eexists; reflexivity.
Qed.

(** X14. After [handleLogout] nothing of the session is left in the tab: the
    session is the initial one, the storage holds no token and a store
    started from it is the initial one, the default header is gone, the
    location is the login page, and a request through the wrapper that
    brings no header of its own goes out without Authorization. *)
Theorem handleLogout_leaves_nothing (w : World Server) :
  let w' := fst (handleLogout w) in
  snd (handleLogout w) = Returned tt ∧
  session w' = initial_session ∧
  location w' = "/login" ∧
  default_auth w' = None ∧
  stored_token (storage w') = VNull ∧
  AuthStore.rehydrate (storage w') = initial_session ∧
  ∀ meth path sent,
    headers (Api.outgoing w' meth path ∅ sent) !! "Authorization" = None.
Proof.
  repeat split.
Qed.
End StoreComposition.

(** ** The [fetch]-based [login] and [register] *)

Section FetchFurther.
Context {Server : Type} (host : Host Server).

(** X15. [login(username, password)] is all or nothing. Whatever the two
    endpoints do, it ends with [isLoading] false, and either it returns,
    with the session authenticated and no error, or it throws, with user,
    token and [isAuthenticated] as they were and the thrown message as the
    error. It never touches the default header or the location. *)
Theorem fetch_login_all_or_nothing (w : World Server) (username password : value) :
  let w' := fst (AuthStoreFetch.login host username password w) in
  isLoading (session w') = VBool false ∧
  default_auth w' = default_auth w ∧
  location w' = location w ∧
  coherent w' ∧
  match snd (AuthStoreFetch.login host username password w) with
  | Returned _ =>
      isAuthenticated (session w') = VBool true ∧ error (session w') = VNull
  | Thrown e =>
      user (session w') = user (session w) ∧
      token (session w') = token (session w) ∧
      isAuthenticated (session w') = isAuthenticated (session w) ∧
      error (session w') = VStr (message e) ∧ message e ≠ ""
  end.
Proof.
  assert (Hne : ∀ m, str_or m "Login failed" ≠ "")
    by (intros m; apply str_or_nonempty; discriminate).
  unfold AuthStoreFetch.login, try_catch, mbind, M_bind, AuthStoreFetch.fetch,
    AuthStoreFetch.json, AuthStoreFetch.ok, read_prop, throw, mret, M_ret.
  rewrite set_run. simpl server.
  destruct (transport host (server w) _) as [srv1 [m | c1 [d | raw]]]; simpl.
  - repeat split. apply Hne.
  - destruct (status_ok c1); simpl.
    + destruct (get_prop d "access_token") as [tok | ]; simpl.
      * destruct (transport host srv1 _) as [srv2 [m | c2 [p | raw]]]; simpl.
        -- repeat split. apply Hne.
        -- destruct (status_ok c2); simpl; repeat split.
        -- destruct (status_ok c2); simpl; repeat split. apply Hne.
      * repeat split. apply Hne.
    + destruct (get_prop d "detail"); simpl; repeat split; apply Hne.
  - destruct (status_ok c1); simpl; repeat split; apply Hne.
Qed.

(** X16. A rejected login is one request and nothing more: no profile request
    follows, and, [fetch] not being the wrapper, an answer 401 forces no
    logout: the location stays and the storage keeps the session's
    token. *)
Theorem fetch_login_rejected_alone (w : World Server) (username password : value) :
  rejects (snd (transport host (server w)
                  (AuthStoreFetch.login_request username password))) = true →
  let w' := fst (AuthStoreFetch.login host username password w) in
  log w' = (log w ++ [Sent (AuthStoreFetch.login_request username password)])%list ∧
  location w' = location w ∧
  stored_token (storage w') = jsonify (token (session w)).
Proof.
  intros Hr w'.
  assert (H : log w' = (log w ++ [Sent (AuthStoreFetch.login_request username password)])%list ∧
              location w' = location w ∧
              coherent w' ∧ token (session w') = token (session w)).
  { subst w'.
    unfold AuthStoreFetch.login, try_catch, mbind, M_bind, AuthStoreFetch.fetch,
      AuthStoreFetch.json, AuthStoreFetch.ok, read_prop, throw, mret, M_ret.
    rewrite set_run. simpl server.
    destruct (transport host (server w) _) as [srv1 [m | c1 [d | raw]]];
      simpl in Hr |- *; rewrite ?Hr; simpl.
    - repeat split.
    - destruct (get_prop d "detail"); simpl; repeat split.
    - repeat split. }
  destruct H as (Hlog & Hloc & Hco & Ht).
  repeat split; try assumption.
  rewrite Hco, stored_token_persisted, Ht. reflexivity.
Qed.

(** X17. A 2xx answer to the login whose body is not JSON, or is [null],
    makes [login] throw without asking for the profile; and when the
    token is there but the 2xx answer of the profile endpoint is not JSON,
    [login] throws as well and the token is not kept. *)
Theorem fetch_login_malformed_answers (w : World Server) (username password : value)
    (srv1 : Server) (c1 : Z) (content : text) :
  transport host (server w) (AuthStoreFetch.login_request username password)
    = (srv1, HttpResponse c1 content) →
  status_ok c1 = true →
  let w' := fst (AuthStoreFetch.login host username password w) in
  let result := snd (AuthStoreFetch.login host username password w) in
  match content with
  | RawText raw =>
      result = Thrown (new_Error (VStr (str_or (syntax_error_message host raw)
                                               "Login failed"))) ∧
      log w' = (log w ++ [Sent (AuthStoreFetch.login_request username password)])%list
  | JsonText d =>
      if nullish d then
        result = Thrown (new_Error (VStr (str_or (type_error_message host d "access_token")
                                                 "Login failed"))) ∧
        log w' = (log w ++ [Sent (AuthStoreFetch.login_request username password)])%list
      else
        ∀ c2 raw,
          snd (transport host srv1
                 (AuthStoreFetch.profile_request (opt_prop d "access_token")))
            = HttpResponse c2 (RawText raw) →
          status_ok c2 = true →
          result = Thrown (new_Error (VStr (str_or (syntax_error_message host raw)
                                                   "Login failed"))) ∧
          token (session w') = token (session w)
  end.
Proof.
  intros H1 Hok w' result. subst w' result.
  unfold AuthStoreFetch.login, try_catch, mbind, M_bind, AuthStoreFetch.fetch,
    AuthStoreFetch.json, AuthStoreFetch.ok, read_prop, throw, mret, M_ret.
  rewrite set_run. simpl server. rewrite H1. simpl. rewrite Hok. simpl.
  destruct content as [d | raw]; simpl.
  - destruct (nullish d) eqn:Hn.
    + destruct d; simpl in *; try discriminate; split; reflexivity.
    + assert (Htok : get_prop d "access_token" = Some (opt_prop d "access_token")).
      { unfold opt_prop. destruct d; simpl in *; congruence. }
      rewrite Htok. simpl. intros c2 raw H2 Hok2.
      destruct (transport host srv1 _) as [srv2 out2]. simpl in H2. subst out2.
      simpl. rewrite Hok2. simpl. split; reflexivity.
  - split; reflexivity.
Qed.

(** X18. [register] of the revision sends one request and never logs the user
    in: user, token, [isAuthenticated], the default header and the location
    stay, and [isLoading] ends false. A 2xx answer makes it return with the
    error cleared, whatever the body; anything else makes it throw a
    message that is not empty and is the error of the session. *)
Theorem fetch_register_outcomes (w : World Server) (userData : value) :
  let out := snd (transport host (server w) (AuthStoreFetch.register_request userData)) in
  let w' := fst (AuthStoreFetch.register host userData w) in
  let result := snd (AuthStoreFetch.register host userData w) in
  user (session w') = user (session w) ∧
  token (session w') = token (session w) ∧
  isAuthenticated (session w') = isAuthenticated (session w) ∧
  isLoading (session w') = VBool false ∧
  default_auth w' = default_auth w ∧
  location w' = location w ∧
  log w' = (log w ++ [Sent (AuthStoreFetch.register_request userData)])%list ∧
  if rejects out
  then ∃ msg, result = Thrown (new_Error (VStr msg)) ∧
              error (session w') = VStr msg ∧ msg ≠ ""
  else result = Returned tt ∧ error (session w') = VNull.
Proof.
  intros out w' result. subst out w' result.
  assert (Hne : ∀ m, str_or m "Registration failed" ≠ "")
    by (intros m; apply str_or_nonempty; discriminate).
  unfold AuthStoreFetch.register, try_catch, mbind, M_bind, AuthStoreFetch.fetch,
    AuthStoreFetch.json, AuthStoreFetch.ok, read_prop, throw, mret, M_ret.
  rewrite set_run. simpl server.
  destruct (transport host (server w) _) as [srv1 [m | c1 [d | raw]]]; simpl.
  - repeat split. eexists. repeat split. apply Hne.
  - destruct (status_ok c1); simpl.
    + repeat split.
    + destruct (get_prop d "detail"); simpl; repeat split;
        eexists; repeat split; apply Hne.
  - destruct (status_ok c1); simpl.
    + repeat split.
    + repeat split. eexists. repeat split. apply Hne.
Qed.
End FetchFurther.

(** ** The pages *)

Section PagesFurther.
Context {Server : Type} (host : Host Server).

(** The list loaders catch everything. *)
Lemma fetchConversations_returns (token : value) (st : Conversations.state)
    (w : World Server) :
  ∃ st' w', Conversations.fetchConversations host token st w
              = ((st', w'), Returned tt).
Proof.
  unfold Conversations.fetchConversations, mbind, PM_bind, update,
    ptry_finally, ptry_catch, lift, pthrow, AuthStoreFetch.fetch,
    AuthStoreFetch.json, AuthStoreFetch.ok, read_prop, throw, mret, M_ret, PM_ret.
  simpl.
  destruct (transport host (server w) _) as [srv [msg | c [d | raw]]]; simpl.
  - eauto.
  - destruct (status_ok c); simpl; [ | eauto ].
    destruct (get_prop d "conversations"); simpl; eauto.
  - destruct (status_ok c); simpl; eauto.
Qed.

Lemma fetchDocuments_returns (token : value) (st : KnowledgeBase.state)
    (w : World Server) :
  ∃ st' w', KnowledgeBase.fetchDocuments host token st w
              = ((st', w'), Returned tt).
Proof.
  unfold KnowledgeBase.fetchDocuments, mbind, PM_bind, update,
    ptry_finally, ptry_catch, lift, pthrow, AuthStoreFetch.fetch,
    AuthStoreFetch.json, AuthStoreFetch.ok, read_prop, throw, mret, M_ret, PM_ret.
  simpl.
  destruct (transport host (server w) _) as [srv [msg | c [d | raw]]]; simpl.
  - eauto.
  - destruct (status_ok c); simpl; [ | eauto ].
    destruct (get_prop d "documents"); simpl; eauto.
  - destruct (status_ok c); simpl; eauto.
Qed.

(** X19. When the two new passwords differ, [handlePasswordChange] sends
    nothing: the tab is as it was, the form keeps what was typed, and the
    page shows the mismatch with [loading] off and no message. *)
Theorem handlePasswordChange_mismatch (token : value) (st : Settings.state)
    (w : World Server) :
  Settings.newPassword (Settings.passwordData st)
    ≠ Settings.confirmPassword (Settings.passwordData st) →
  Settings.handlePasswordChange host token st w
    = (({| Settings.passwordData := Settings.passwordData st;
           Settings.loading := false;
           Settings.notice := "";
           Settings.failure := "New passwords do not match" |}, w),
       Returned tt).
Proof.
  intros Hne. apply String.eqb_neq in Hne.
  unfold Settings.handlePasswordChange, mbind, PM_bind, gets, update. simpl.
  rewrite Hne. reflexivity.
Qed.

(** X20. When the two new passwords agree, [handlePasswordChange] puts the
    current and the new password, as a form of two fields, to
    [/users/password] with the token, once, and returns with [loading]
    off whatever happens. Only a 2xx answer with a JSON body empties the
    form and shows the success message. A 2xx answer whose body is not
    JSON is shown as an error and the form stays, as it does for a
    rejection, which shows the server's detail or else the default, and
    for a request that does not complete. *)
Theorem handlePasswordChange_outcomes (token : value) (st : Settings.state)
    (w : World Server) :
  let form := Settings.passwordData st in
  let req := page_request "PUT" "/users/password" token
               (FormBody [("current_password", Settings.currentPassword form);
                          ("new_password", Settings.newPassword form)]) in
  Settings.newPassword form = Settings.confirmPassword form →
  let shown (f : Settings.password_form) (m e : string) : Settings.state :=
    {| Settings.passwordData := f; Settings.loading := false;
       Settings.notice := m; Settings.failure := e |} in
  Settings.handlePasswordChange host token st w
    = ((match snd (transport host (server w) req) with
        | NetworkError msg => shown form "" msg
        | HttpResponse c (RawText raw) =>
            shown form "" (syntax_error_message host raw)
        | HttpResponse c (JsonText d) =>
            if status_ok c
            then shown Settings.empty_form "Password changed successfully" ""
            else if nullish d
                 then shown form "" (type_error_message host d "detail")
                 else shown form ""
                        (message (new_Error (or_else (opt_prop d "detail")
                                               (VStr "Failed to change password"))))
        end, after_request host req w),
       Returned tt).
Proof.
  intros form req Heq shown. apply String.eqb_eq in Heq.
  unfold Settings.handlePasswordChange, mbind, PM_bind, gets, update,
    ptry_finally, ptry_catch, lift, pthrow, AuthStoreFetch.fetch,
    AuthStoreFetch.json, AuthStoreFetch.ok, read_prop, throw, mret, M_ret.
  simpl. fold form. rewrite Heq. simpl. fold req. unfold after_request.
  destruct (transport host (server w) req) as [srv [msg | c [d | raw]]]; simpl.
  - reflexivity.
  - destruct (status_ok c); simpl; [ reflexivity | ].
    destruct d; simpl; reflexivity.
  - reflexivity.
Qed.

(** X21. The two list loaders return whatever happens and end with [loading]
    off, after one request. [fetchConversations] shows the [conversations]
    of a 2xx answer, an empty list when the answer has none, and otherwise
    keeps the list and shows an error: the fixed text for a rejection, the
    failure's own message else. [fetchDocuments] does the same for
    [documents], except that a rejection changes nothing and every failure
    shows the same fixed text. *)
Theorem list_loaders_outcomes (token : value) (w : World Server) :
  (∀ st : Conversations.state,
     let req := page_request "GET" "/chat/conversations" token NoBody in
     Conversations.fetchConversations host token st w
       = ((match snd (transport host (server w) req) with
           | NetworkError msg =>
               Conversations.setLoading false (Conversations.setError msg st)
           | HttpResponse c content =>
               if status_ok c then
                 match content with
                 | RawText raw =>
                     Conversations.setLoading false
                       (Conversations.setError (syntax_error_message host raw) st)
                 | JsonText d =>
                     if nullish d
                     then Conversations.setLoading false
                            (Conversations.setError
                               (type_error_message host d "conversations") st)
                     else Conversations.setLoading false
                            (Conversations.setConversations
                               (or_else (opt_prop d "conversations") (VArr [])) st)
                 end
               else Conversations.setLoading false
                      (Conversations.setError "Failed to fetch conversations" st)
           end, after_request host req w),
          Returned tt)) ∧
  (∀ st : KnowledgeBase.state,
     let req := page_request "GET" "/files/knowledge-base" token NoBody in
     KnowledgeBase.fetchDocuments host token st w
       = ((match snd (transport host (server w) req) with
           | NetworkError _ =>
               KnowledgeBase.setLoading false
                 (KnowledgeBase.setError "Failed to fetch documents" st)
           | HttpResponse c content =>
               if status_ok c then
                 match content with
                 | RawText _ =>
                     KnowledgeBase.setLoading false
                       (KnowledgeBase.setError "Failed to fetch documents" st)
                 | JsonText d =>
                     if nullish d
                     then KnowledgeBase.setLoading false
                            (KnowledgeBase.setError "Failed to fetch documents" st)
                     else KnowledgeBase.setLoading false
                            (KnowledgeBase.setDocuments
                               (or_else (opt_prop d "documents") (VArr [])) st)
                 end
               else KnowledgeBase.setLoading false st
           end, after_request host req w),
          Returned tt)).
Proof.
  split; intros st req.
  - unfold Conversations.fetchConversations, mbind, PM_bind, update,
      ptry_finally, ptry_catch, lift, pthrow, AuthStoreFetch.fetch,
      AuthStoreFetch.json, AuthStoreFetch.ok, read_prop, throw, mret, M_ret, PM_ret.
    simpl. fold req. unfold after_request.
    destruct (transport host (server w) req) as [srv [msg | c [d | raw]]]; simpl.
    + reflexivity.
    + destruct (status_ok c); simpl; [ | reflexivity ].
      destruct d; simpl; reflexivity.
    + destruct (status_ok c); simpl; reflexivity.
  - unfold KnowledgeBase.fetchDocuments, mbind, PM_bind, update,
      ptry_finally, ptry_catch, lift, pthrow, AuthStoreFetch.fetch,
      AuthStoreFetch.json, AuthStoreFetch.ok, read_prop, throw, mret, M_ret, PM_ret.
    simpl. fold req. unfold after_request.
    destruct (transport host (server w) req) as [srv [msg | c [d | raw]]]; simpl.
    + reflexivity.
    + destruct (status_ok c); simpl; [ | reflexivity ].
      destruct d; simpl; reflexivity.
    + destruct (status_ok c); simpl; reflexivity.
Qed.

(** X22. Deleting from a page. When the user declines, nothing happens. When
    the user confirms and the server accepts, the page does not edit its
    list: it loads the list again, and what it shows is what that loader
    leaves. When the server rejects or the request does not complete, the
    list stays and the page shows an error, after that one request. *)
Theorem delete_handlers_outcomes (token documentId : value) (w : World Server) :
  (∀ st : Conversations.state,
     Conversations.deleteConversation host token false documentId st w
       = ((st, w), Returned tt)) ∧
  (∀ st : KnowledgeBase.state,
     KnowledgeBase.deleteDocument host token false documentId st w
       = ((st, w), Returned tt)) ∧
  (∀ st : Conversations.state,
     let req := page_request "DELETE"
                  ("/chat/conversations/" ++ to_string documentId) token NoBody in
     Conversations.deleteConversation host token true documentId st w
       = match snd (transport host (server w) req) with
         | NetworkError msg =>
             ((Conversations.setError msg st, after_request host req w), Returned tt)
         | HttpResponse c _ =>
             if status_ok c
             then Conversations.fetchConversations host token st (after_request host req w)
             else ((Conversations.setError "Failed to delete conversation" st,
                    after_request host req w), Returned tt)
         end) ∧
  (∀ st : KnowledgeBase.state,
     let req := page_request "DELETE" ("/files/" ++ to_string documentId)
                  token NoBody in
     KnowledgeBase.deleteDocument host token true documentId st w
       = match snd (transport host (server w) req) with
         | NetworkError msg =>
             ((KnowledgeBase.setError msg st, after_request host req w), Returned tt)
         | HttpResponse c _ =>
             if status_ok c
             then KnowledgeBase.fetchDocuments host token
                    (KnowledgeBase.setMessage "Document deleted successfully" st)
                    (after_request host req w)
             else ((KnowledgeBase.setError "Failed to delete document" st,
                    after_request host req w), Returned tt)
         end).
Proof.
  split; [ reflexivity | split; [ reflexivity | split ] ]; intros st req.
  - unfold Conversations.deleteConversation, mbind, PM_bind, update,
      ptry_catch, lift, pthrow, AuthStoreFetch.fetch, AuthStoreFetch.ok.
    simpl. fold req. unfold after_request.
    destruct (transport host (server w) req) as [srv [msg | c content]]; simpl.
    + reflexivity.
    + destruct (status_ok c); simpl; [ | reflexivity ].
      set (w1 := logged _ _).
      destruct (fetchConversations_returns token st w1) as (st' & w' & E).
      rewrite E. reflexivity.
  - unfold KnowledgeBase.deleteDocument, mbind, PM_bind, update,
      ptry_catch, lift, pthrow, AuthStoreFetch.fetch, AuthStoreFetch.ok.
    simpl. fold req. unfold after_request.
    destruct (transport host (server w) req) as [srv [msg | c content]]; simpl.
    + reflexivity.
    + destruct (status_ok c); simpl; [ | reflexivity ].
      set (w1 := logged _ _). set (st1 := KnowledgeBase.setMessage _ st).
      destruct (fetchDocuments_returns token st1 w1) as (st' & w' & E).
      rewrite E. reflexivity.
Qed.
(** One request of a page leaves the store, the storage, the location
    and the default header alone. *)
Lemma after_request_same_tab (req : request) (w : World Server) :
  same_tab w (after_request host req w).
Proof. repeat split. Qed.

Lemma same_tab_trans (w1 w2 w3 : World Server) :
  same_tab w1 w2 → same_tab w2 w3 → same_tab w1 w3.
Proof.
  intros (A1 & A2 & A3 & A4) (B1 & B2 & B3 & B4).
  repeat split; congruence.
Qed.

Lemma fetchConversations_same_tab (token : value) (st : Conversations.state)
    (w : World Server) :
  same_tab w (snd (fst (Conversations.fetchConversations host token st w))).
Proof.
  unfold Conversations.fetchConversations, mbind, PM_bind, update,
    ptry_finally, ptry_catch, lift, pthrow, AuthStoreFetch.fetch,
    AuthStoreFetch.json, AuthStoreFetch.ok, read_prop, throw, mret, M_ret, PM_ret.
  simpl.
  destruct (transport host (server w) _) as [srv [msg | c [d | raw]]]; simpl.
  - repeat split.
  - destruct (status_ok c); simpl; [ | repeat split ].
    destruct (get_prop d "conversations"); simpl; repeat split.
  - destruct (status_ok c); simpl; repeat split.
Qed.

Lemma fetchDocuments_same_tab (token : value) (st : KnowledgeBase.state)
    (w : World Server) :
  same_tab w (snd (fst (KnowledgeBase.fetchDocuments host token st w))).
Proof.
  unfold KnowledgeBase.fetchDocuments, mbind, PM_bind, update,
    ptry_finally, ptry_catch, lift, pthrow, AuthStoreFetch.fetch,
    AuthStoreFetch.json, AuthStoreFetch.ok, read_prop, throw, mret, M_ret, PM_ret.
  simpl.
  destruct (transport host (server w) _) as [srv [msg | c [d | raw]]]; simpl.
  - repeat split.
  - destruct (status_ok c); simpl; [ | repeat split ].
    destruct (get_prop d "documents"); simpl; repeat split.
  - destruct (status_ok c); simpl; repeat split.
Qed.

(** X23. The pages never write to the store: whatever the server answers, a
    401 included, the handlers of the conversations, knowledge base and
    settings pages leave the session, the storage, the location and the
    default header as they were. They talk to the server with [fetch], so
    the forced logout of the wrapper does not apply to them. *)
Theorem pages_leave_the_store_alone (token : value) (w : World Server) :
  (∀ st, same_tab w (snd (fst (Conversations.fetchConversations host token st w)))) ∧
  (∀ st, same_tab w (snd (fst (KnowledgeBase.fetchDocuments host token st w)))) ∧
  (∀ confirmed id st,
     same_tab w (snd (fst (Conversations.deleteConversation host token confirmed id st w)))) ∧
  (∀ confirmed id st,
     same_tab w (snd (fst (KnowledgeBase.deleteDocument host token confirmed id st w)))) ∧
  (∀ st, same_tab w (snd (fst (Settings.handlePasswordChange host token st w)))).
Proof.
  split; [ | split; [ | split; [ | split ] ] ].
  - intros st. apply fetchConversations_same_tab.
  - intros st. apply fetchDocuments_same_tab.
  - intros [ | ] id st; [ | repeat split ].
    unfold Conversations.deleteConversation, mbind, PM_bind, update,
      ptry_catch, lift, pthrow, AuthStoreFetch.fetch, AuthStoreFetch.ok.
    simpl.
    destruct (transport host (server w) _) as [srv [msg | c content]]; simpl.
    + repeat split.
    + destruct (status_ok c); simpl; [ | repeat split ].
      set (w1 := logged _ _).
      pose proof (fetchConversations_same_tab token st w1) as Hf.
      destruct (fetchConversations_returns token st w1) as (st' & w' & E).
      rewrite E in Hf |- *. simpl in Hf |- *.
      eapply same_tab_trans; [ | exact Hf ]. repeat split.
  - intros [ | ] id st; [ | repeat split ].
    unfold KnowledgeBase.deleteDocument, mbind, PM_bind, update,
      ptry_catch, lift, pthrow, AuthStoreFetch.fetch, AuthStoreFetch.ok.
    simpl.
    destruct (transport host (server w) _) as [srv [msg | c content]]; simpl.
    + repeat split.
    + destruct (status_ok c); simpl; [ | repeat split ].
      set (w1 := logged _ _). set (st1 := KnowledgeBase.setMessage _ st).
      pose proof (fetchDocuments_same_tab token st1 w1) as Hf.
      destruct (fetchDocuments_returns token st1 w1) as (st' & w' & E).
      rewrite E in Hf |- *. simpl in Hf |- *.
      eapply same_tab_trans; [ | exact Hf ]. repeat split.
  - intros st.
    unfold Settings.handlePasswordChange, mbind, PM_bind, gets, update,
      ptry_finally, ptry_catch, lift, pthrow, AuthStoreFetch.fetch,
      AuthStoreFetch.json, AuthStoreFetch.ok, read_prop, throw, mret, M_ret.
    simpl.
    destruct (negb _); simpl; [ repeat split | ].
    destruct (transport host (server w) _) as [srv [msg | c [d | raw]]]; simpl.
    + repeat split.
    + destruct (status_ok c); simpl; [ repeat split | ].
      destruct (get_prop d "detail"); simpl; repeat split.
    + repeat split.
Qed.
End PagesFurther.

(** * Further runs on the sample tabs *)

Lemma request_interceptor_frame_witness :
  headers (Api.request_interceptor (Some (AuthStore.persisted alice_session)) sample_request)
    !! "Content-Type" = Some "application/json".
Proof.
  destruct (request_interceptor_frame (Some (AuthStore.persisted alice_session))
              sample_request) as (_ & _ & _ & H & _).
  rewrite (H "Content-Type"); [ reflexivity | discriminate ].
Defined.

Lemma api_request_passes_other_outcomes_witness :
  let w := alice_tab [HttpResponse 403 (JsonText (VObj {[ "detail" := VStr "Forbidden" ]}))] in
  let w' := fst (Api.api_request scripted "GET" "/plugins" ∅ NoBody w) in
  storage w' = storage w ∧ location w' = "/chat".
Proof.
  destruct (api_request_passes_other_outcomes scripted
              (alice_tab [HttpResponse 403 (JsonText (VObj {[ "detail" := VStr "Forbidden" ]}))])
              "GET" "/plugins" ∅ NoBody eq_refl) as (_ & _ & Hs & Hl & _).
  exact (conj Hs Hl).
Defined.

Lemma userAPI_changePassword_form_witness :
  (∃ e, userAPI.changePassword scripted VNull (alice_tab [])
          = (alice_tab [], Thrown e)) ∧
  ∃ config rest,
    log (fst (userAPI.changePassword scripted
                (VObj {[ "currentPassword" := VStr "a" ]})
                (alice_tab [HttpResponse 200 (JsonText VNull)])))
      = ([] ++ Sent config :: rest)%list ∧
    body config = FormBody [("current_password", "a"); ("new_password", "undefined")].
Proof.
  split.
  - exact (proj1 (userAPI_changePassword_form scripted (alice_tab []) VNull) eq_refl).
  - destruct (proj2 (userAPI_changePassword_form scripted
                       (alice_tab [HttpResponse 200 (JsonText VNull)])
                       (VObj {[ "currentPassword" := VStr "a" ]})) eq_refl)
      as (config & rest & Hlog & _ & _ & Hb).
    exists config, rest. split; [ exact Hlog | exact Hb ].
Defined.

Lemma register_never_logs_in_witness :
  let run := AuthStore.register scripted
               (VObj {[ "username" := VStr "bob" ]})
               (fresh_tab [HttpResponse 400 (JsonText (VObj {[ "detail" := VStr "Username already registered" ]}))]) in
  error (session (fst run)) = VStr "Username already registered" ∧
  token (session (fst run)) = VNull.
Proof.
  destruct (register_never_logs_in scripted
              (fresh_tab [HttpResponse 400 (JsonText (VObj {[ "detail" := VStr "Username already registered" ]}))])
              (VObj {[ "username" := VStr "bob" ]})) as (_ & Ht & _ & _ & _ & H).
  split; [ | exact Ht ].
  exact (proj1 H).
Defined.

Lemma clearError_undoes_failure_witness :
  session (fst (AuthStore.clearError
                  (fst (AuthStore.changePassword scripted
                          (VObj {[ "currentPassword" := VStr "a"; "newPassword" := VStr "b" ]})
                          (alice_tab [HttpResponse 400 (JsonText (VObj {[ "detail" := VStr "wrong current password" ]}))])))))
    = alice_session.
Proof.
  exact (proj1 (clearError_undoes_failure scripted
                  (alice_tab [HttpResponse 400 (JsonText (VObj {[ "detail" := VStr "wrong current password" ]}))])
                  (VObj {[ "currentPassword" := VStr "a"; "newPassword" := VStr "b" ]})
                  eq_refl) eq_refl).
Defined.

Lemma initializeAuth_without_token_witness :
  AuthStore.initializeAuth scripted (fresh_tab [HttpResponse 200 (JsonText alice)])
    = (fresh_tab [HttpResponse 200 (JsonText alice)], Returned tt).
Proof.
  exact (proj1 (initializeAuth_without_token scripted
                  (fresh_tab [HttpResponse 200 (JsonText alice)])) eq_refl).
Defined.

(** The server accepts [Bearer good] alone; the tab was reopened on that
    token. *)
Lemma initializeAuth_accepted_header_witness :
  let w' := fst (AuthStore.initializeAuth checking_server (tab_with_token "good")) in
  user (session w') = alice ∧ isAuthenticated (session w') = VBool true ∧
  default_auth w' = Some "Bearer good".
Proof.
  destruct (initializeAuth_accepted_header checking_server (tab_with_token "good")
              200 (JsonText alice)) as (Hs & Hd & _).
  - reflexivity.
  - vm_compute. reflexivity.
  - reflexivity.
  - intros w'. subst w'. rewrite Hs.
    split; [ reflexivity | ]. split; [ reflexivity | exact Hd ].
Defined.

(** A visit: alice fails to change her password on a 401, clears the
    error, updates her profile and logs out. *)
Lemma store_actions_keep_storage_witness :
  let w' := fst (perform_all scripted
                   [ChangePassword (VObj {[ "currentPassword" := VStr "a" ]});
                    ClearError;
                    UpdateProfile (VObj {[ "email" := VStr "new@x.com" ]});
                    Logout;
                    InitializeAuth]
                   (alice_tab
                      [HttpResponse 401 (JsonText (VObj {[ "detail" := VStr "Token expired" ]}));
                       HttpResponse 200 (JsonText (VObj {[ "email" := VStr "new@x.com" ]}))])) in
  coherent w'.
Proof.
  apply (store_actions_keep_storage scripted). reflexivity.
Defined.

Lemma set_then_request_uses_token_witness :
  headers (Api.outgoing
             (fst (AuthStore.set
                     {| p_user := None; p_token := Some (VStr "t2");
                        p_isAuthenticated := None; p_isLoading := None;
                        p_error := None |}
                     (alice_tab [])))
             "GET" "/plugins" ∅ NoBody) !! "Authorization"
    = Some "Bearer t2".
Proof.
  apply (proj2 (set_then_request_uses_token (alice_tab [])
                  {| p_user := None; p_token := Some (VStr "t2");
                     p_isAuthenticated := None; p_isLoading := None;
                     p_error := None |}
                  "GET" "/plugins" NoBody) "t2").
  - reflexivity.
  - discriminate.
Defined.

Lemma store_unauthorized_keeps_token_witness :
  let w' := fst (AuthStore.updateProfile scripted
                   (VObj {[ "email" := VStr "new@x.com" ]})
                   (alice_tab [HttpResponse 401 (JsonText (VObj {[ "detail" := VStr "Token expired" ]}))])) in
  location w' = "/login" ∧ stored_token (storage w') = VStr "t1".
Proof.
  destruct (proj1 (store_unauthorized_keeps_token scripted
                     (alice_tab [HttpResponse 401 (JsonText (VObj {[ "detail" := VStr "Token expired" ]}))])
                     (VObj {[ "email" := VStr "new@x.com" ]})
                     (JsonText (VObj {[ "detail" := VStr "Token expired" ]}))) eq_refl)
    as (Hl & _ & _ & Hs).
  exact (conj Hl Hs).
Defined.

Lemma axios_login_outcomes_witness :
  let run := AuthStore.login scripted
               (VObj {[ "username" := VStr "alice"; "password" := VStr "pw" ]})
               (fresh_tab [HttpResponse 200 (JsonText VNull)]) in
  snd run = Returned (VObj {[ "success" := VBool false; "error" := VStr "Login failed" ]}) ∧
  isLoading (session (fst run)) = VBool false.
Proof.
  destruct (axios_login_outcomes scripted
              (fresh_tab [HttpResponse 200 (JsonText VNull)])
              (VObj {[ "username" := VStr "alice"; "password" := VStr "pw" ]}))
    as (Hl & _ & _ & _ & Hr).
  exact (conj Hr Hl).
Defined.

Lemma fetch_login_rejected_alone_witness :
  let w' := fst (AuthStoreFetch.login scripted (VStr "alice") (VStr "pw")
                   (alice_tab [HttpResponse 401 (JsonText (VObj {[ "detail" := VStr "Invalid credentials" ]}))])) in
  location w' = "/chat" ∧ stored_token (storage w') = VStr "t1".
Proof.
  destruct (fetch_login_rejected_alone scripted
              (alice_tab [HttpResponse 401 (JsonText (VObj {[ "detail" := VStr "Invalid credentials" ]}))])
              (VStr "alice") (VStr "pw") eq_refl) as (_ & Hl & Hs).
  exact (conj Hl Hs).
Defined.

Lemma fetch_login_malformed_answers_witness :
  snd (AuthStoreFetch.login scripted (VStr "alice") (VStr "pw")
         (fresh_tab [HttpResponse 200 (RawText "<html>")]))
    = Thrown (new_Error (VStr "Unexpected token < in JSON at position 0")).
Proof.
  exact (proj1 (fetch_login_malformed_answers scripted
                  (fresh_tab [HttpResponse 200 (RawText "<html>")])
                  (VStr "alice") (VStr "pw") [] 200 (RawText "<html>")
                  eq_refl eq_refl)).
Defined.

Lemma handlePasswordChange_mismatch_witness :
  Settings.handlePasswordChange scripted (VStr "t1") (typed_form "c")
    (alice_tab [HttpResponse 200 (JsonText VNull)])
    = (({| Settings.passwordData := Settings.passwordData (typed_form "c");
           Settings.loading := false; Settings.notice := "";
           Settings.failure := "New passwords do not match" |},
        alice_tab [HttpResponse 200 (JsonText VNull)]),
       Returned tt).
Proof.
  apply (handlePasswordChange_mismatch scripted). discriminate.
Defined.

Lemma handlePasswordChange_outcomes_witness :
  fst (fst (Settings.handlePasswordChange scripted (VStr "t1") (typed_form "b")
              (alice_tab [HttpResponse 400 (JsonText (VObj {[ "detail" := VStr "wrong current password" ]}))])))
    = {| Settings.passwordData := Settings.passwordData (typed_form "b");
         Settings.loading := false; Settings.notice := "";
         Settings.failure := "wrong current password" |}.
Proof.
  rewrite (handlePasswordChange_outcomes scripted (VStr "t1") (typed_form "b")
             (alice_tab [HttpResponse 400 (JsonText (VObj {[ "detail" := VStr "wrong current password" ]}))])
             eq_refl).
  reflexivity.
Defined.
